(** * Seshat VS Code extension: process transport and commit workflow

  A shallow embedding of [src/seshatRunner.ts] (class [SeshatRunner]) and of
  the controller of the extension (class [SeshatController]), followed by the
  properties of the line decoder, of the process handle and of the
  commit-confirmation state machine.

  Conventions.
  - A JavaScript string is the list of its UTF-16 code units.
  - An optional-chaining call [this.panel?.f(..)] or [this.runner?.f(..)]
    produces its effect only when the field is not null.
  - An [async] method is cut at each of its [await]s: the part before the
    [await] runs inside the step that calls the method and leaves a pending
    task; the part after it runs in a later step, on the object state of that
    later moment. *)

From Stdlib Require Import List String Ascii NArith ZArith Bool Lia DecimalString.
Import ListNotations.

Set Implicit Arguments.
Set Warnings "-register-all".

(* ------------------------------------------------------------------------- *)
(** * JavaScript strings *)

Module Js.

Definition jsstring := list N.

(** An ASCII literal as a JavaScript string. *)
Definition str (s : string) : jsstring :=
  List.map N_of_ascii (list_ascii_of_string s).

Definition eqb (a b : jsstring) : bool :=
  if list_eq_dec N.eq_dec a b then true else false.

(** Truthiness of a string: every string but the empty one. *)
Definition truthy (s : jsstring) : bool :=
  match s with [] => false | _ :: _ => true end.

(** ECMAScript WhiteSpace and LineTerminator code units, the ones
    [String.prototype.trim] strips. *)
Definition is_white_space (c : N) : bool :=
  ((c =? 9) || (c =? 10) || (c =? 11) || (c =? 12) || (c =? 13) || (c =? 32)
   || (c =? 160) || (c =? 5760) || ((8192 <=? c) && (c <=? 8202))
   || (c =? 8232) || (c =? 8233) || (c =? 8239) || (c =? 8287)
   || (c =? 12288) || (c =? 65279))%N.

Fixpoint trimStart (s : jsstring) : jsstring :=
  match s with
  | c :: rest => if is_white_space c then trimStart rest else s
  | [] => []
  end.

Definition trimEnd (s : jsstring) : jsstring := rev (trimStart (rev s)).

Definition trim (s : jsstring) : jsstring := trimEnd (trimStart s).

Fixpoint endsWith_newline (s : jsstring) : bool :=
  match s with
  | [] => false
  | [c] => (c =? 10)%N
  | _ :: rest => endsWith_newline rest
  end.

(** Canonicalisation of the [i] flag without the [u] flag, as far as it can
    reach an ASCII letter: a lower-case ASCII letter goes to its upper-case
    letter; a code unit of 128 or more never canonicalises to a code unit
    below 128, so it is left alone here. *)
Definition canonicalize (c : N) : N :=
  if ((97 <=? c) && (c <=? 122))%N then (c - 32)%N else c.

Fixpoint matches_at (pat s : jsstring) : bool :=
  match pat, s with
  | [], _ => true
  | _ :: _, [] => false
  | p :: pat', c :: s' =>
      (canonicalize p =? canonicalize c)%N && matches_at pat' s'
  end.

(** [new RegExp(pat, 'i').test(s)] for a pattern made of literal letters. *)
Fixpoint test_i (pat s : jsstring) : bool :=
  matches_at pat s ||
  match s with
  | [] => false
  | _ :: s' => test_i pat s'
  end.

(** [s] contains [pat] up to the case of ASCII letters: the reading of
    [test_i] as a statement. *)
Definition contains_ignoring_case (pat s : jsstring) : Prop :=
  exists pre mid post,
    s = pre ++ mid ++ post
    /\ List.map canonicalize mid = List.map canonicalize pat.

(** [String(n)] for an integer. *)
Definition of_Z (z : Z) : jsstring := str (NilZero.string_of_int (Z.to_int z)).

(** [parts.filter(Boolean).join('\n')]. *)
Fixpoint join_lines (parts : list jsstring) : jsstring :=
  match parts with
  | [] => []
  | [p] => p
  | p :: rest => p ++ 10%N :: join_lines rest
  end.

Definition filter_join (parts : list jsstring) : jsstring :=
  join_lines (List.filter truthy parts).

End Js.

Import Js.

(* ------------------------------------------------------------------------- *)
(** * JSON values and [JSON.parse] *)

Module Json.

(** A parsed JSON text.  A number keeps its lexeme; an object keeps its
    members in source order. *)
Inductive value : Type :=
| JNull
| JBool (b : bool)
| JNumber (lexeme : jsstring)
| JString (s : jsstring)
| JArray (items : list value)
| JObject (members : list (jsstring * value)).

(** [typeof v === 'object' && v !== null]: objects and arrays. *)
Definition is_object (v : value) : bool :=
  match v with
  | JArray _ | JObject _ => true
  | _ => false
  end.

(** [key in v] for a value that is an object: an array parsed from JSON has
    index keys and [length] only, and nothing named by a word. *)
Definition has_word_key (key : jsstring) (v : value) : bool :=
  match v with
  | JObject members => existsb (fun m => Js.eqb (fst m) key) members
  | _ => false
  end.

(** ** A recursive-descent reader of the JSON grammar *)

Definition is_json_ws (c : N) : bool :=
  ((c =? 9) || (c =? 10) || (c =? 13) || (c =? 32))%N.

Fixpoint skip_ws (s : jsstring) : jsstring :=
  match s with
  | c :: rest => if is_json_ws c then skip_ws rest else s
  | [] => []
  end.

Definition is_digit (c : N) : bool := ((48 <=? c) && (c <=? 57))%N.

Definition hex_val (c : N) : option N :=
  if is_digit c then Some (c - 48)%N
  else if ((97 <=? c) && (c <=? 102))%N then Some (c - 87)%N
  else if ((65 <=? c) && (c <=? 70))%N then Some (c - 55)%N
  else None.

Definition hex4 (a b c d : N) : option N :=
  match hex_val a, hex_val b, hex_val c, hex_val d with
  | Some x, Some y, Some z, Some w => Some (((x * 16 + y) * 16 + z) * 16 + w)%N
  | _, _, _, _ => None
  end.

(** The characters of a string after its opening quote, up to and including
    the closing quote. *)
Fixpoint string_body (s : jsstring) (acc : jsstring)
  : option (jsstring * jsstring) :=
  match s with
  | [] => None
  | 34%N :: rest => Some (rev acc, rest)
  | 92%N :: 117%N :: a :: b :: c :: d :: rest =>
      match hex4 a b c d with
      | Some u => string_body rest (u :: acc)
      | None => None
      end
  | 92%N :: e :: rest =>
      let esc :=
        if (e =? 34)%N then Some 34%N
        else if (e =? 92)%N then Some 92%N
        else if (e =? 47)%N then Some 47%N
        else if (e =? 98)%N then Some 8%N
        else if (e =? 102)%N then Some 12%N
        else if (e =? 110)%N then Some 10%N
        else if (e =? 114)%N then Some 13%N
        else if (e =? 116)%N then Some 9%N
        else None in
      match esc with
      | Some u => string_body rest (u :: acc)
      | None => None
      end
  | c :: rest =>
      if (c <? 32)%N then None else string_body rest (c :: acc)
  end.

Fixpoint digits (s : jsstring) : jsstring * jsstring :=
  match s with
  | c :: rest =>
      if is_digit c then let (ds, r) := digits rest in (c :: ds, r) else ([], s)
  | [] => ([], [])
  end.

(** A JSON number: an optional minus sign; then a single zero, or a
    non-zero digit and any digits; then optionally a dot and one digit or
    more; then optionally [e] or [E], an optional sign and one digit or
    more. *)
Definition number (s : jsstring) : option (jsstring * jsstring) :=
  let (sign, s1) :=
    match s with 45%N :: r => ([45%N], r) | _ => ([], s) end in
  let (int, s2) := digits s1 in
  match int with
  | [] => None
  | 48%N :: _ :: _ => None
  | _ =>
      let frac :=
        match s2 with
        | 46%N :: r =>
            let (fd, s3) := digits r in
            match fd with [] => None | _ => Some (46%N :: fd, s3) end
        | _ => Some ([], s2)
        end in
      match frac with
      | None => None
      | Some (fr, s3) =>
          match s3 with
          | e :: r =>
              if ((e =? 101) || (e =? 69))%N then
                let (sg, r1) :=
                  match r with
                  | g :: r' =>
                      if ((g =? 43) || (g =? 45))%N then ([g], r') else ([], r)
                  | [] => ([], r)
                  end in
                let (ed, s4) := digits r1 in
                match ed with
                | [] => None
                | _ => Some (sign ++ int ++ fr ++ e :: sg ++ ed, s4)
                end
              else Some (sign ++ int ++ fr, s3)
          | [] => Some (sign ++ int ++ fr, s3)
          end
      end
  end.

Fixpoint parse_value (fuel : nat) (s : jsstring) : option (value * jsstring) :=
  match fuel with
  | O => None
  | S fuel' =>
      match skip_ws s with
      | 123%N :: rest =>
          match skip_ws rest with
          | 125%N :: r => Some (JObject [], r)
          | _ => parse_members fuel' rest []
          end
      | 91%N :: rest =>
          match skip_ws rest with
          | 93%N :: r => Some (JArray [], r)
          | _ => parse_elements fuel' rest []
          end
      | 34%N :: rest =>
          match string_body rest [] with
          | Some (str, r) => Some (JString str, r)
          | None => None
          end
      | 116%N :: 114%N :: 117%N :: 101%N :: r => Some (JBool true, r)
      | 102%N :: 97%N :: 108%N :: 115%N :: 101%N :: r => Some (JBool false, r)
      | 110%N :: 117%N :: 108%N :: 108%N :: r => Some (JNull, r)
      | s' =>
          match number s' with
          | Some (lexeme, r) => Some (JNumber lexeme, r)
          | None => None
          end
      end
  end
with parse_elements (fuel : nat) (s : jsstring) (acc : list value)
  : option (value * jsstring) :=
  match fuel with
  | O => None
  | S fuel' =>
      match parse_value fuel' s with
      | Some (v, r) =>
          match skip_ws r with
          | 44%N :: r' => parse_elements fuel' r' (v :: acc)
          | 93%N :: r' => Some (JArray (rev (v :: acc)), r')
          | _ => None
          end
      | None => None
      end
  end
with parse_members (fuel : nat) (s : jsstring) (acc : list (jsstring * value))
  : option (value * jsstring) :=
  match fuel with
  | O => None
  | S fuel' =>
      match skip_ws s with
      | 34%N :: rest =>
          match string_body rest [] with
          | Some (key, r) =>
              match skip_ws r with
              | 58%N :: r1 =>
                  match parse_value fuel' r1 with
                  | Some (v, r2) =>
                      match skip_ws r2 with
                      | 44%N :: r3 => parse_members fuel' r3 ((key, v) :: acc)
                      | 125%N :: r3 => Some (JObject (rev ((key, v) :: acc)), r3)
                      | _ => None
                      end
                  | None => None
                  end
              | _ => None
              end
          | None => None
          end
      | _ => None
      end
  end.

(** [JSON.parse(text)]: [None] stands for the [SyntaxError] it throws.  Every
    call of the reader above consumes a character before it calls again, so
    twice the length of the text is fuel enough. *)
Definition parse (text : jsstring) : option value :=
  match parse_value (2 * List.length text + 2) text with
  | Some (v, r) => match skip_ws r with [] => Some v | _ => None end
  | None => None
  end.

End Json.

(* ------------------------------------------------------------------------- *)
(** * [SeshatRunner]: the subprocess transport ([src/seshatRunner.ts]) *)

Module SeshatRunner.

(** What the runner reads of Node's [ChildProcess]: [killed], set by a
    [kill()] that delivered its signal, and [stdin.writable]. *)
Record ChildProcess : Type := mkChild {
  killed : bool;
  stdin_writable : bool
}.

(** The fields of the class.  The two readline interfaces are created and
    closed together, so one flag stands for both. *)
Record t : Type := mkRunner {
  process : option ChildProcess;
  readers : bool
}.

Definition create : t := {| process := None; readers := false |}.

Definition isRunning (r : t) : bool :=
  match process r with
  | Some p => negb (killed p)
  | None => false
  end.

Inductive RunOutcome : Type :=
| Started
| AlreadyRunning   (* the Error thrown by [run] itself *)
| SpawnThrew.      (* an exception of [spawn] *)

(** [run(cwd, executablePath)]; [spawn_ok] tells whether [spawn] returned a
    child or threw. *)
Definition run (r : t) (spawn_ok : bool) : t * RunOutcome :=
  if isRunning r then (r, AlreadyRunning)
  else if spawn_ok then
    ({| process := Some {| killed := false; stdin_writable := true |};
        readers := true |}, Started)
  else (r, SpawnThrew).

(** [respond(text)]: the value returned and the payload written, if any. *)
Definition respond (r : t) (text : jsstring) : bool * option jsstring :=
  match process r with
  | None => (false, None)
  | Some p =>
      if killed p || negb (stdin_writable p) then (false, None)
      else
        let payload :=
          if endsWith_newline text then text else text ++ [10%N] in
        (true, Some payload)
  end.

(** [kill()]; [delivered] is the result of [ChildProcess.kill()], which sets
    [killed] exactly when the signal was delivered. *)
Definition kill (r : t) (delivered : bool) : t :=
  match process r with
  | Some p =>
      if negb (killed p) then
        {| process := Some {| killed := killed p || delivered;
                              stdin_writable := stdin_writable p |};
           readers := readers r |}
      else r
  | None => r
  end.

(** The handler of the child's [close] event, before it re-emits [close]:
    [cleanupReaders()] and [this.process = null]. *)
Definition on_child_close (r : t) : t :=
  {| process := None; readers := false |}.

(** The child closed its end of the input pipe. *)
Definition on_stdin_end (r : t) : t :=
  match process r with
  | Some p =>
      {| process := Some {| killed := killed p; stdin_writable := false |};
         readers := readers r |}
  | None => r
  end.

(** ** The handler of a line of standard output *)

Section Decoder.

(** [JSON.parse], a built-in of the language. *)
Variable JSON_parse : jsstring -> option Json.value.

(** [{ event: 'info', message: trimmed }] *)
Definition fallback (trimmed : jsstring) : Json.value :=
  Json.JObject [ (str "event", Json.JString (str "info"));
                 (str "message", Json.JString trimmed) ].

(** The value given to [this.emit('event', ..)], or [None] when the
    handler returns without emitting. *)
Definition on_stdout_line (line : jsstring) : option Json.value :=
  let trimmed := trim line in
  if negb (truthy trimmed) then None
  else
    match JSON_parse trimmed with
    | Some parsed =>
        if Json.is_object parsed && Json.has_word_key (str "event") parsed
        then Some parsed
        else Some (fallback trimmed)
    | None => Some (fallback trimmed)
    end.

End Decoder.

(** The handler of a line of standard error: the string emitted as
    [stderr], if any. *)
Definition on_stderr_line (line : jsstring) : option jsstring :=
  let trimmed := trim line in
  if truthy trimmed then Some trimmed else None.

(** ** The runner as a transition system *)

Inductive Call : Type :=
| Run (spawn_ok : bool)
| Respond (text : jsstring)
| Kill (delivered : bool)
| ChildClose
| ChildStdinEnd.

Definition call (r : t) (c : Call) : t :=
  match c with
  | Run ok => fst (run r ok)
  | Respond _ => r
  | Kill d => kill r d
  | ChildClose => on_child_close r
  | ChildStdinEnd => on_stdin_end r
  end.

Definition exec (calls : list Call) : t := fold_left call calls create.

(** ** Vocabulary of the statements and sample lines *)

(** The two calls that end a running handle. *)
Definition ends_running (c : Call) : Prop := c = ChildClose \/ c = Kill true.

Definition quoted (s : string) : jsstring := 34%N :: str s ++ [34%N].

(** The line [{"kind":"step"}]. *)
Definition line_kind_step : jsstring :=
  str "{" ++ quoted "kind" ++ str ":" ++ quoted "step" ++ str "}".

(** The line [  {"event":"step","message":"ok"}] with a trailing blank. *)
Definition line_event_step : jsstring :=
  str "  {" ++ quoted "event" ++ str ":" ++ quoted "step" ++ str ","
    ++ quoted "message" ++ str ":" ++ quoted "ok" ++ str "} ".

Definition value_event_step : Json.value :=
  Json.JObject [ (str "event", Json.JString (str "step"));
                 (str "message", Json.JString (str "ok")) ].

End SeshatRunner.

(* ------------------------------------------------------------------------- *)
(** * [SeshatController]: the commit workflow *)

Module Controller.

(** ** Events, operator actions and effects *)

(** Modelled from the spec: the declarations of [./types] (the event
    records and [SeshatRunnerStatus]) are not among the sources.  An event is
    a record tagged by its [event] field; the fields are the ones of the
    event table, with the optional ones as options. *)
Inductive SeshatEvent : Type :=
| message_ready (message : jsstring)
| confirm_needed (message : jsstring) (default : option bool)
| choice_needed (message : jsstring) (choices : option (list jsstring))
    (default : option jsstring)
| committed (summary : option jsstring)
| cancelled (reason : option jsstring)
| error (message : option jsstring)
| other (kind : jsstring).

Inductive SeshatRunnerStatus : Type :=
| status_running
| status_success
| status_error.

(** [PanelMessageFromWebview] *)
Inductive PanelMessageFromWebview : Type :=
| confirm
| cancel
| messageEdited (message : jsstring).

(** The calls the controller makes on its collaborators. *)
Inductive Effect : Type :=
| PanelCreate
| PanelReveal (autoOpen : bool)
| PanelReset
| PanelSetStatus (status : SeshatRunnerStatus) (text : jsstring)
| PanelPostSeshatEvent (e : SeshatEvent)
| PanelPostStep (message : jsstring)
| PanelPostWarning (message : jsstring)
| PanelSetCommitMessage (message suggested : jsstring)
| PanelShowCommitActions (visible : bool) (prompt : option jsstring)
| PanelPostSystemOutput (title output : jsstring)
| PanelDispose
| ShowErrorMessage (text : jsstring)
| ShowInformationMessage (text : jsstring)
| ShowWarningMessage (text : jsstring)
| ShowWarningModal (text : jsstring) (items : list jsstring)
| ShowQuickPick (picks : list jsstring) (placeHolder : jsstring)
| RunnerRun (cwd executablePath : jsstring)
| RunnerRespond (text : jsstring)       (* a call of [runner.respond] *)
| StdinWrite (payload : jsstring)       (* what that call wrote *)
| RunnerKill
| SpawnGit (cwd : jsstring) (args : list jsstring)
| SetTimeout (delayMs : Z).

(** The settlement of the promise of [runGitCommit]: the child closed, the
    child reported an error, or [spawn] threw inside the executor of the
    promise.  In each case the method that awaits the promise resumes in a
    later turn of the loop. *)
Inductive GitSettle : Type :=
| GitClosed (code : option Z) (stdout stderr : jsstring)
| GitChildError (message : jsstring) (stdout stderr : jsstring)
| GitSpawnThrew (message : jsstring).

(** [GitCommitFailure] *)
Record GitCommitFailure : Type := mkFailure {
  failure_message : jsstring;
  failure_stdout : option jsstring;
  failure_stderr : option jsstring;
  failure_code : option Z
}.

(** A suspended [async] method, waiting at its [await], or a timer. *)
Inductive Task : Type :=
| AwaitWarningModal (default : option bool)
| AwaitQuickPick (choices : list jsstring) (default : option jsstring)
| AwaitGitCommit (cwd edited : jsstring)
| PanelResetTimer.

(** ** The fields of the controller *)

(** [panel] tells whether [this.panel] is set.  [runner] stands for
    [this.runner] and [this.runnerListeners] at once: the two are set
    together by [startCommit] and cleared together by [cleanupRunner]. *)
Record SeshatController : Type := mkController {
  panel : bool;
  runner : option SeshatRunner.t;
  workspacePath : option jsstring;
  suggestedMessage : jsstring;
  editedMessage : jsstring;
  hasMessageReady : bool;
  waitingForCommitConfirmation : bool;
  replacingWithManualGitCommit : bool;
  sawTerminalEvent : bool
}.

Definition initial : SeshatController :=
  {| panel := false; runner := None; workspacePath := None;
     suggestedMessage := []; editedMessage := [];
     hasMessageReady := false; waitingForCommitConfirmation := false;
     replacingWithManualGitCommit := false; sawTerminalEvent := false |}.

Definition set_panel (v : bool) (c : SeshatController) :=
  mkController v (runner c) (workspacePath c) (suggestedMessage c)
    (editedMessage c) (hasMessageReady c) (waitingForCommitConfirmation c)
    (replacingWithManualGitCommit c) (sawTerminalEvent c).
Definition set_runner (v : option SeshatRunner.t) (c : SeshatController) :=
  mkController (panel c) v (workspacePath c) (suggestedMessage c)
    (editedMessage c) (hasMessageReady c) (waitingForCommitConfirmation c)
    (replacingWithManualGitCommit c) (sawTerminalEvent c).
Definition set_workspacePath (v : option jsstring) (c : SeshatController) :=
  mkController (panel c) (runner c) v (suggestedMessage c)
    (editedMessage c) (hasMessageReady c) (waitingForCommitConfirmation c)
    (replacingWithManualGitCommit c) (sawTerminalEvent c).
Definition set_suggestedMessage (v : jsstring) (c : SeshatController) :=
  mkController (panel c) (runner c) (workspacePath c) v
    (editedMessage c) (hasMessageReady c) (waitingForCommitConfirmation c)
    (replacingWithManualGitCommit c) (sawTerminalEvent c).
Definition set_editedMessage (v : jsstring) (c : SeshatController) :=
  mkController (panel c) (runner c) (workspacePath c) (suggestedMessage c)
    v (hasMessageReady c) (waitingForCommitConfirmation c)
    (replacingWithManualGitCommit c) (sawTerminalEvent c).
Definition set_hasMessageReady (v : bool) (c : SeshatController) :=
  mkController (panel c) (runner c) (workspacePath c) (suggestedMessage c)
    (editedMessage c) v (waitingForCommitConfirmation c)
    (replacingWithManualGitCommit c) (sawTerminalEvent c).
Definition set_waitingForCommitConfirmation (v : bool) (c : SeshatController) :=
  mkController (panel c) (runner c) (workspacePath c) (suggestedMessage c)
    (editedMessage c) (hasMessageReady c) v
    (replacingWithManualGitCommit c) (sawTerminalEvent c).
Definition set_replacingWithManualGitCommit (v : bool) (c : SeshatController) :=
  mkController (panel c) (runner c) (workspacePath c) (suggestedMessage c)
    (editedMessage c) (hasMessageReady c) (waitingForCommitConfirmation c)
    v (sawTerminalEvent c).
Definition set_sawTerminalEvent (v : bool) (c : SeshatController) :=
  mkController (panel c) (runner c) (workspacePath c) (suggestedMessage c)
    (editedMessage c) (hasMessageReady c) (waitingForCommitConfirmation c)
    (replacingWithManualGitCommit c) v.

(** ** Methods as state transformers that log their effects *)

Definition M (A : Type) : Type :=
  SeshatController -> A * SeshatController * list Effect.

Definition ret {A : Type} (a : A) : M A := fun c => (a, c, []).

Definition bind {A B : Type} (m : M A) (k : A -> M B) : M B :=
  fun c =>
    let '(a, c1, e1) := m c in
    let '(b, c2, e2) := k a c1 in
    (b, c2, e1 ++ e2).

Definition get {A : Type} (field : SeshatController -> A) : M A :=
  fun c => (field c, c, []).

Definition assign (update : SeshatController -> SeshatController) : M unit :=
  fun c => (tt, update c, []).

Definition emit (e : Effect) : M unit := fun c => (tt, c, [e]).

Declare Scope method_scope.
Delimit Scope method_scope with method.
Notation "x <- m ;; k" := (bind m (fun x => k))
  (at level 61, m at next level, right associativity) : method_scope.
Notation "m ;; k" := (bind m (fun _ => k))
  (at level 61, right associativity) : method_scope.
Local Open Scope method_scope.

(** [this.panel?.f(..)] *)
Definition on_panel (e : Effect) : M unit :=
  fun c => (tt, c, if panel c then [e] else []).

(** [this.runner?.respond(text)] *)
Definition runner_respond (text : jsstring) : M unit :=
  fun c =>
    match runner c with
    | None => (tt, c, [])
    | Some r =>
        match snd (SeshatRunner.respond r text) with
        | Some payload => (tt, c, [RunnerRespond text; StdinWrite payload])
        | None => (tt, c, [RunnerRespond text])
        end
    end.

(** [value || fallback] on an optional string. *)
Definition or_else (value : option jsstring) (dflt : jsstring) : jsstring :=
  match value with
  | Some v => if truthy v then v else dflt
  | None => dflt
  end.

(** ** Literals of the source that are not plain ASCII *)

Definition yesLabel : jsstring := str "Sim".
Definition noLabel : jsstring := str "N" ++ [227%N] ++ str "o".
Definition text_Concluido : jsstring := str "Conclu" ++ [237%N] ++ str "do".
Definition text_already_running : jsstring :=
  str "Seshat: j" ++ [225%N] ++ str " existe um commit em execu"
    ++ [231%N; 227%N] ++ str "o.".
Definition text_runner_running : jsstring :=
  str "Seshat runner j" ++ [225%N] ++ str " est" ++ [225%N]
    ++ str " em execu" ++ [231%N; 227%N] ++ str "o.".
Definition text_workspace_unavailable : jsstring :=
  str "Workspace indispon" ++ [237%N] ++ str "vel".
Definition text_workspace_not_found : jsstring :=
  str "Seshat: n" ++ [227%N] ++ str "o foi poss" ++ [237%N]
    ++ str "vel localizar o workspace para git commit.".
Definition text_git_exit (code : option Z) : jsstring :=
  str "git commit finalizou com c" ++ [243%N] ++ str "digo "
    ++ match code with Some n => of_Z n | None => str "desconhecido" end.

(** ** Runner plumbing: [cleanupRunner], [stopRunner] *)

Definition cleanupRunner : M unit := assign (set_runner None).

Definition stopRunner : M unit :=
  r <- get runner ;;
  (match r with
   | Some r' => if SeshatRunner.isRunning r' then emit RunnerKill else ret tt
   | None => ret tt
   end) ;;
  cleanupRunner.

Definition getOrCreatePanel : M unit :=
  p <- get panel ;;
  if p then ret tt else emit PanelCreate ;; assign (set_panel true).

Definition schedulePanelReset : M (list Task) :=
  emit (SetTimeout 1800) ;; ret [PanelResetTimer].

(** ** [startCommit] *)

(** [workspaceFolder] is the path of the first workspace folder, if any;
    [configuredPath] and [autoOpenPanel] are the two settings read;
    [spawn_error] is the message of the exception of [spawn], if it threw. *)
Definition startCommit (workspaceFolder : option jsstring)
    (configuredPath : jsstring) (autoOpenPanel : bool)
    (spawn_error : option jsstring) : M (list Task) :=
  match workspaceFolder with
  | None =>
      emit (ShowErrorMessage
              (str "Seshat: abra um workspace antes de executar o commit.")) ;;
      ret []
  | Some fsPath =>
      r <- get runner ;;
      if match r with Some r' => SeshatRunner.isRunning r' | None => false end
      then
        on_panel (PanelReveal true) ;;
        emit (ShowInformationMessage text_already_running) ;;
        ret []
      else
        assign (set_workspacePath (Some fsPath)) ;;
        let executablePath :=
          if truthy configuredPath then configuredPath else str "seshat" in
        getOrCreatePanel ;;
        emit (PanelReveal autoOpenPanel) ;;
        emit PanelReset ;;
        emit (PanelSetStatus status_running (str "Executando")) ;;
        assign (set_suggestedMessage []) ;;
        assign (set_editedMessage []) ;;
        assign (set_hasMessageReady false) ;;
        assign (set_waitingForCommitConfirmation false) ;;
        assign (set_replacingWithManualGitCommit false) ;;
        assign (set_sawTerminalEvent false) ;;
        assign (set_runner (Some SeshatRunner.create)) ;;
        let started :=
          SeshatRunner.run SeshatRunner.create
            (match spawn_error with None => true | Some _ => false end) in
        match snd started with
        | SeshatRunner.Started =>
            assign (set_runner (Some (fst started))) ;;
            emit (RunnerRun fsPath executablePath) ;;
            emit (PanelPostStep
                    (str "Executando: " ++ executablePath
                       ++ str " commit --format json")) ;;
            ret []
        | outcome =>
            let message :=
              match outcome, spawn_error with
              | SeshatRunner.SpawnThrew, Some m => m
              | _, _ => text_runner_running
              end in
            emit (PanelSetStatus status_error (str "Falha ao iniciar")) ;;
            emit (ShowErrorMessage
                    (str "Seshat: falha ao iniciar processo (" ++ message
                       ++ str ").")) ;;
            cleanupRunner ;;
            ret []
        end
  end.

(** ** [dispose] and the disposal of the panel *)

Definition dispose : M unit :=
  stopRunner ;;
  p <- get panel ;;
  if p then emit PanelDispose ;; assign (set_panel false) else ret tt.

(** The listener that [getOrCreatePanel] registers on [onDidDispose]. *)
Definition onPanelDidDispose : M unit :=
  assign (set_panel false) ;;
  stopRunner.

(** ** [handleRunnerClose] *)

Definition handleRunnerClose (code : option Z) : M unit :=
  cancelledForEditedMessage <- get replacingWithManualGitCommit ;;
  saw <- get sawTerminalEvent ;;
  (if negb saw && negb cancelledForEditedMessage then
     match code with
     | Some 0%Z => on_panel (PanelSetStatus status_success text_Concluido)
     | _ => on_panel (PanelSetStatus status_error
                        (str "Processo finalizado com erro"))
     end
   else ret tt) ;;
  on_panel (PanelShowCommitActions false None) ;;
  assign (set_waitingForCommitConfirmation false) ;;
  cleanupRunner.

(** ** The handlers of the events of the tool *)

Definition handleMessageReady (message : jsstring) : M unit :=
  assign (set_suggestedMessage message) ;;
  assign (set_editedMessage message) ;;
  assign (set_hasMessageReady true) ;;
  on_panel (PanelSetCommitMessage message message).

(** [this.hasMessageReady && /commit/i.test(event.message)] *)
Definition isCommitConfirmation (c : SeshatController) (message : jsstring)
  : bool :=
  hasMessageReady c && test_i (str "commit") message.

(** [handleConfirmNeeded] up to its [await]. *)
Definition handleConfirmNeeded (message : jsstring) (default : option bool)
  : M (list Task) :=
  ready <- get hasMessageReady ;;
  if ready && test_i (str "commit") message then
    assign (set_waitingForCommitConfirmation true) ;;
    on_panel (PanelShowCommitActions true (Some message)) ;;
    ret []
  else
    emit (ShowWarningModal message [yesLabel; noLabel]) ;;
    ret [AwaitWarningModal default].

(** [handleConfirmNeeded] after its [await]; [choice] is the item picked in
    the modal, [None] when it was dismissed. *)
Definition resumeConfirmNeeded (default : option bool)
    (choice : option jsstring) : M unit :=
  match choice with
  | Some picked =>
      if Js.eqb picked yesLabel then runner_respond (str "y")
      else if Js.eqb picked noLabel then runner_respond (str "n")
      else
        runner_respond
          (match default with Some true => str "y" | _ => str "n" end)
  | None =>
      runner_respond
        (match default with Some true => str "y" | _ => str "n" end)
  end.

(** [handleChoiceNeeded] up to its [await]. *)
Definition handleChoiceNeeded (message : jsstring)
    (choices : option (list jsstring)) (default : option jsstring)
  : M (list Task) :=
  match choices with
  | None | Some [] => ret []
  | Some picks =>
      emit (ShowQuickPick picks message) ;;
      ret [AwaitQuickPick picks default]
  end.

(** [handleChoiceNeeded] after its [await]; [selected] is the label of the
    pick, [None] when the list was dismissed. *)
Definition resumeChoiceNeeded (choices : list jsstring)
    (default : option jsstring) (selected : option jsstring) : M unit :=
  match selected with
  | Some label => runner_respond label
  | None =>
      match default with
      | Some d =>
          if truthy d then runner_respond d
          else runner_respond (hd [] choices)
      | None => runner_respond (hd [] choices)
      end
  end.

Definition handleCommitted (summary : option jsstring) : M (list Task) :=
  assign (set_sawTerminalEvent true) ;;
  assign (set_waitingForCommitConfirmation false) ;;
  assign (set_hasMessageReady false) ;;
  on_panel (PanelShowCommitActions false None) ;;
  on_panel (PanelSetStatus status_success
              (or_else summary (str "Commit realizado"))) ;;
  emit (ShowInformationMessage
          (str "Seshat: "
             ++ or_else summary (str "commit realizado com sucesso."))) ;;
  schedulePanelReset.

Definition handleCancelled (reason : option jsstring) : M unit :=
  assign (set_sawTerminalEvent true) ;;
  assign (set_waitingForCommitConfirmation false) ;;
  assign (set_hasMessageReady false) ;;
  on_panel (PanelShowCommitActions false None) ;;
  replacing <- get replacingWithManualGitCommit ;;
  if replacing then ret tt
  else
    let reason' :=
      match reason with Some r => r | None => str "sem motivo informado" end in
    on_panel (PanelSetStatus status_error (str "Commit cancelado")) ;;
    emit (ShowWarningMessage
            (str "Seshat: commit cancelado (" ++ reason' ++ str ").")).

Definition handleSeshatEvent (event : SeshatEvent) : M (list Task) :=
  on_panel (PanelPostSeshatEvent event) ;;
  match event with
  | message_ready message => handleMessageReady message ;; ret []
  | confirm_needed message default => handleConfirmNeeded message default
  | choice_needed message choices default =>
      handleChoiceNeeded message choices default
  | committed summary => handleCommitted summary
  | cancelled reason => handleCancelled reason ;; ret []
  | error message =>
      replacing <- get replacingWithManualGitCommit ;;
      (if negb replacing then
         on_panel (PanelSetStatus status_error (or_else message (str "Erro"))) ;;
         emit (ShowErrorMessage
                 (str "Seshat: " ++ or_else message (str "erro inesperado.")))
       else ret tt) ;;
      ret []
  | other _ => ret []
  end.

(** ** The manual commit: [runGitCommit] and [handleCommitConfirmation] *)

(** How the promise of [runGitCommit] settles: resolved with the two
    captured streams, or rejected with a failure. *)
Definition runGitCommit (settle : GitSettle)
  : (jsstring * jsstring) + GitCommitFailure :=
  match settle with
  | GitClosed (Some 0%Z) stdout stderr => inl (stdout, stderr)
  | GitClosed code stdout stderr =>
      inr {| failure_message := text_git_exit code;
             failure_stdout := Some stdout;
             failure_stderr := Some stderr;
             failure_code := code |}
  | GitChildError message stdout stderr =>
      inr {| failure_message := message;
             failure_stdout := Some stdout;
             failure_stderr := Some stderr;
             failure_code := None |}
  | GitSpawnThrew message =>
      inr {| failure_message := message;
             failure_stdout := None;
             failure_stderr := None;
             failure_code := None |}
  end.

(** [handleCommitConfirmation] up to its [await]; the call of [spawn] made
    by the executor of the promise is part of it. *)
Definition handleCommitConfirmation : M (list Task) :=
  e <- get editedMessage ;;
  s <- get suggestedMessage ;;
  let edited := trim e in
  let original := trim s in
  assign (set_waitingForCommitConfirmation false) ;;
  assign (set_hasMessageReady false) ;;
  on_panel (PanelShowCommitActions false None) ;;
  if negb (truthy edited) || Js.eqb edited original then
    runner_respond (str "y") ;;
    ret []
  else
    assign (set_replacingWithManualGitCommit true) ;;
    runner_respond (str "n") ;;
    root <- get workspacePath ;;
    match root with
    | Some ((_ :: _) as cwd) =>
        on_panel (PanelSetStatus status_running
                    (str "Aplicando mensagem editada com git commit")) ;;
        emit (SpawnGit cwd [str "commit"; str "-m"; edited]) ;;
        ret [AwaitGitCommit cwd edited]
    | _ =>
        on_panel (PanelSetStatus status_error text_workspace_unavailable) ;;
        emit (ShowErrorMessage text_workspace_not_found) ;;
        assign (set_replacingWithManualGitCommit false) ;;
        ret []
    end.

(** [err.stream ? String(err.stream).trim() : ''] *)
Definition trimmed_or_empty (stream : option jsstring) : jsstring :=
  match stream with
  | Some text => if truthy text then trim text else []
  | None => []
  end.

(** [handleCommitConfirmation] after its [await]: the [try] body, the
    [catch] clause, and the [finally] clause that ends both. *)
Definition resumeCommitConfirmation (settle : GitSettle) : M (list Task) :=
  timers <-
    match runGitCommit settle with
    | inl (stdout, stderr) =>
        let output := filter_join [stdout; stderr] in
        (if truthy output
         then on_panel (PanelPostSystemOutput (str "git commit") output)
         else ret tt) ;;
        on_panel (PanelSetStatus status_success
                    (str "Commit realizado com mensagem editada")) ;;
        assign (set_sawTerminalEvent true) ;;
        emit (ShowInformationMessage
                (str "Seshat: commit realizado com a mensagem editada.")) ;;
        schedulePanelReset
    | inr err =>
        let stderr := trimmed_or_empty (failure_stderr err) in
        let stdout := trimmed_or_empty (failure_stdout err) in
        let combined := filter_join [stdout; stderr] in
        (if truthy combined
         then on_panel (PanelPostSystemOutput (str "git commit (erro)") combined)
         else ret tt) ;;
        on_panel (PanelSetStatus status_error
                    (str "Falha ao executar git commit")) ;;
        emit (ShowErrorMessage
                (str "Seshat: falha no git commit (" ++ failure_message err
                   ++ str ").")) ;;
        ret []
    end ;;
  assign (set_replacingWithManualGitCommit false) ;;
  ret timers.

(** ** [handlePanelMessage] *)

Definition handlePanelMessage (message : PanelMessageFromWebview)
  : M (list Task) :=
  match message with
  | messageEdited text => assign (set_editedMessage text) ;; ret []
  | _ =>
      waiting <- get waitingForCommitConfirmation ;;
      if negb waiting then ret []
      else
        match message with
        | cancel =>
            assign (set_waitingForCommitConfirmation false) ;;
            assign (set_hasMessageReady false) ;;
            on_panel (PanelShowCommitActions false None) ;;
            runner_respond (str "n") ;;
            ret []
        | confirm => handleCommitConfirmation
        | messageEdited _ => ret []
        end
  end.

(** ** The event loop *)

(** The controller together with the suspended methods and timers. *)
Record World : Type := mkWorld {
  ctl : SeshatController;
  pending : list Task
}.

Definition start : World := {| ctl := initial; pending := [] |}.

(** What the host, the tool and the operator can make happen. *)
Inductive Input : Type :=
| StartCommit (workspaceFolder : option jsstring) (configuredPath : jsstring)
    (autoOpenPanel : bool) (spawn_error : option jsstring)
| RunnerEvent (event : SeshatEvent)
| RunnerStderr (line : jsstring)
| RunnerError (message : jsstring)
| RunnerClose (code : option Z)
| RunnerStdinEnd
| PanelMessage (message : PanelMessageFromWebview)
| PanelDisposed
| Dispose
| WarningModalClosed (task : nat) (choice : option jsstring)
| QuickPickClosed (task : nat) (selected : option jsstring)
| GitCommitSettled (task : nat) (settle : GitSettle)
| TimerFired (task : nat).

Definition invoke {A : Type} (tasks_of : A -> list Task) (w : World)
    (others : list Task) (m : M A) : World * list Effect :=
  let '(a, c, effects) := m (ctl w) in
  ({| ctl := c; pending := others ++ tasks_of a |}, effects).

Definition no_task (_ : unit) : list Task := [].
Definition these (tasks : list Task) : list Task := tasks.

Definition without (n : nat) (tasks : list Task) : list Task :=
  firstn n tasks ++ skipn (S n) tasks.

Definition member (x : jsstring) (l : list jsstring) : bool :=
  existsb (Js.eqb x) l.

Definition attached (w : World) : bool :=
  match runner (ctl w) with Some _ => true | None => false end.

(** One turn of the event loop; [None] when the input cannot occur in [w]:
    a notification of a runner needs its listeners attached, an action of
    the operator needs the panel, and a method resumes only where it is
    suspended, with an answer that its dialog offers. *)
Definition step (w : World) (i : Input) : option (World * list Effect) :=
  match i with
  | StartCommit workspaceFolder configuredPath autoOpenPanel spawn_error =>
      Some (invoke these w (pending w)
              (startCommit workspaceFolder configuredPath autoOpenPanel
                 spawn_error))
  | RunnerEvent event =>
      if attached w
      then Some (invoke these w (pending w) (handleSeshatEvent event))
      else None
  | RunnerStderr line =>
      if attached w
      then Some (invoke no_task w (pending w) (on_panel (PanelPostWarning line)))
      else None
  | RunnerError message =>
      if attached w
      then Some (invoke no_task w (pending w)
                   (on_panel (PanelSetStatus status_error
                                (str "Erro no processo")) ;;
                    emit (ShowErrorMessage
                            (str "Seshat: erro no processo (" ++ message
                               ++ str ")."))))
      else None
  | RunnerClose code =>
      if attached w
      then Some (invoke no_task w (pending w)
                   (r <- get runner ;;
                    assign (set_runner
                              (option_map SeshatRunner.on_child_close r)) ;;
                    handleRunnerClose code))
      else None
  | RunnerStdinEnd =>
      if attached w
      then Some (invoke no_task w (pending w)
                   (r <- get runner ;;
                    assign (set_runner
                              (option_map SeshatRunner.on_stdin_end r))))
      else None
  | PanelMessage message =>
      if panel (ctl w)
      then Some (invoke these w (pending w) (handlePanelMessage message))
      else None
  | PanelDisposed =>
      if panel (ctl w)
      then Some (invoke no_task w (pending w) onPanelDidDispose)
      else None
  | Dispose => Some (invoke no_task w (pending w) dispose)
  | WarningModalClosed n choice =>
      match nth_error (pending w) n with
      | Some (AwaitWarningModal default) =>
          if match choice with
             | Some picked => member picked [yesLabel; noLabel]
             | None => true
             end
          then Some (invoke no_task w (without n (pending w))
                       (resumeConfirmNeeded default choice))
          else None
      | _ => None
      end
  | QuickPickClosed n selected =>
      match nth_error (pending w) n with
      | Some (AwaitQuickPick choices default) =>
          if match selected with
             | Some label => member label choices
             | None => true
             end
          then Some (invoke no_task w (without n (pending w))
                       (resumeChoiceNeeded choices default selected))
          else None
      | _ => None
      end
  | GitCommitSettled n settle =>
      match nth_error (pending w) n with
      | Some (AwaitGitCommit _ _) =>
          Some (invoke these w (without n (pending w))
                  (resumeCommitConfirmation settle))
      | _ => None
      end
  | TimerFired n =>
      match nth_error (pending w) n with
      | Some PanelResetTimer =>
          Some (invoke no_task w (without n (pending w)) (on_panel PanelReset))
      | _ => None
      end
  end.

(** A run of the loop over a list of inputs, with the effects in order. *)
Fixpoint run (w : World) (inputs : list Input) : option (World * list Effect) :=
  match inputs with
  | [] => Some (w, [])
  | i :: rest =>
      match step w i with
      | Some (w1, e1) =>
          match run w1 rest with
          | Some (w2, e2) => Some (w2, e1 ++ e2)
          | None => None
          end
      | None => None
      end
  end.

(** The states reached from [start] by steps that [allowed] lets through. *)
Inductive reachable_by (allowed : World -> Input -> bool) : World -> Prop :=
| reachable_start : reachable_by allowed start
| reachable_step (w w' : World) (i : Input) (effects : list Effect) :
    reachable_by allowed w ->
    allowed w i = true ->
    step w i = Some (w', effects) ->
    reachable_by allowed w'.

Definition any_input (_ : World) (_ : Input) : bool := true.

Definition reachable : World -> Prop := reachable_by any_input.

(** ** Reading a list of effects *)

Definition responses (effects : list Effect) : list jsstring :=
  flat_map (fun e => match e with RunnerRespond t => [t] | _ => [] end) effects.

Definition stdin_writes (effects : list Effect) : list jsstring :=
  flat_map (fun e => match e with StdinWrite p => [p] | _ => [] end) effects.

Definition git_spawns (effects : list Effect)
  : list (jsstring * list jsstring) :=
  flat_map (fun e => match e with SpawnGit cwd args => [(cwd, args)] | _ => [] end)
    effects.

Definition statuses (effects : list Effect)
  : list (SeshatRunnerStatus * jsstring) :=
  flat_map (fun e => match e with PanelSetStatus s t => [(s, t)] | _ => [] end)
    effects.

(** ** Vocabulary of the statements *)

Definition world_after (inputs : list Input) : World :=
  match run start inputs with
  | Some (w, _) => w
  | None => start
  end.

Definition next_world (w : World) (i : Input) : World :=
  match step w i with
  | Some (w', _) => w'
  | None => w
  end.

Definition next_effects (w : World) (i : Input) : list Effect :=
  match step w i with
  | Some (_, effects) => effects
  | None => []
  end.

Definition runs (inputs : list Input) : bool :=
  match run start inputs with Some _ => true | None => false end.

(** Closing the modal of task [n] with [choice] is a step of [w], and the
    responses of that step are exactly [replies]. *)
Definition modal_reply (w : World) (n : nat) (choice : option jsstring)
    (replies : list jsstring) : Prop :=
  exists w' effects,
    step w (WarningModalClosed n choice) = Some (w', effects)
    /\ responses effects = replies.

(** The same for the quick pick of task [n]. *)
Definition pick_reply (w : World) (n : nat) (selected : option jsstring)
    (replies : list jsstring) : Prop :=
  exists w' effects,
    step w (QuickPickClosed n selected) = Some (w', effects)
    /\ responses effects = replies.

(** The input is not a commit prompt arriving during a manual commit. *)
Definition no_commit_prompt_during_fallback (w : World) (i : Input) : bool :=
  match i with
  | RunnerEvent (confirm_needed message _) =>
      negb (replacingWithManualGitCommit (ctl w)
            && isCommitConfirmation (ctl w) message)
  | _ => true
  end.

(** ** Sample sessions *)

(** A workflow started in [/w] with the default settings. *)
Definition session_started : list Input :=
  [ StartCommit (Some (str "/w")) (str "seshat") true None ].

(** ... in which the tool then proposed [fix: x]. *)
Definition session_ready : list Input :=
  session_started ++ [ RunnerEvent (message_ready (str "fix: x")) ].

(** ... and then asked to confirm the commit. *)
Definition session_awaiting : list Input :=
  session_ready ++ [ RunnerEvent (confirm_needed (str "Confirm commit?") None) ].

(** ... after which the operator rewrote the message to [feat: y]. *)
Definition session_edited : list Input :=
  session_awaiting ++ [ PanelMessage (messageEdited (str "feat: y")) ].

(** ... and confirmed, which starts the manual commit. *)
Definition session_fallback : list Input :=
  session_edited ++ [ PanelMessage confirm ].

(** The trimmed streams of a failure, joined: what the [catch] clause
    shows. *)
Definition combined_output (failure : GitCommitFailure) : jsstring :=
  filter_join [ trimmed_or_empty (failure_stdout failure);
                trimmed_or_empty (failure_stderr failure) ].

(** Settling the manual commit of task [n] with [settle] is a step of [w]
    into [w'] with [effects]. *)
Definition settles (w : World) (n : nat) (settle : GitSettle) (w' : World)
    (effects : list Effect) : Prop :=
  step w (GitCommitSettled n settle) = Some (w', effects).

(** A prompt with two choices whose declared default is the empty string. *)
Definition choice_with_empty_default : SeshatEvent :=
  choice_needed (str "Pick one") (Some [str "a"; str "b"]) (Some []).

(** The sample session in which, during the manual commit, the tool
    proposes a message again and asks again to confirm the commit. *)
Definition session_prompt_during_fallback : list Input :=
  session_fallback
    ++ [ RunnerEvent (message_ready (str "fix: z"));
         RunnerEvent (confirm_needed (str "Confirm commit?") None) ].

(** Whether [inputs] is a run from [w] whose every step [allowed] lets
    through. *)
Fixpoint run_allowed (allowed : World -> Input -> bool) (w : World)
    (inputs : list Input) : bool :=
  match inputs with
  | [] => true
  | i :: rest =>
      allowed w i &&
      match step w i with
      | Some (w1, _) => run_allowed allowed w1 rest
      | None => false
      end
  end.

(** ** Invariants of the loop *)

Definition is_git_task (t : Task) : bool :=
  match t with AwaitGitCommit _ _ => true | _ => false end.

Record invariant (w : World) : Prop := mkInvariant {
  (* listeners are attached only while the panel exists *)
  inv_panel : attached w = true -> panel (ctl w) = true;
  (* the attached runner has a child that was not killed *)
  inv_live : forall r, runner (ctl w) = Some r -> SeshatRunner.isRunning r = true;
  (* with the panel open, a commit prompt is awaited only on a runner *)
  inv_waiting : waitingForCommitConfirmation (ctl w) = true ->
                panel (ctl w) = true -> attached w = true;
  (* the fallback flag is up only while a manual commit is awaited *)
  inv_replacing : replacingWithManualGitCommit (ctl w) = true ->
                  existsb is_git_task (pending w) = true
}.

Definition exclusive (w : World) : Prop :=
  waitingForCommitConfirmation (ctl w)
  && replacingWithManualGitCommit (ctl w) = false.

End Controller.

(* ------------------------------------------------------------------------- *)
(** * More vocabulary for the commit workflow *)

Module Session.

Import Controller.

(** What [startCommit] leaves when it starts a session: no message, the four
    flags down. *)
Definition fresh_session (c : SeshatController) : Prop :=
  suggestedMessage c = []
  /\ editedMessage c = []
  /\ hasMessageReady c = false
  /\ waitingForCommitConfirmation c = false
  /\ replacingWithManualGitCommit c = false
  /\ sawTerminalEvent c = false.

(** The fields of a session, without the panel and the runner. *)
Definition same_session (c c' : SeshatController) : Prop :=
  workspacePath c' = workspacePath c
  /\ suggestedMessage c' = suggestedMessage c
  /\ editedMessage c' = editedMessage c
  /\ hasMessageReady c' = hasMessageReady c
  /\ waitingForCommitConfirmation c' = waitingForCommitConfirmation c
  /\ replacingWithManualGitCommit c' = replacingWithManualGitCommit c
  /\ sawTerminalEvent c' = sawTerminalEvent c.

(** The runner that [run] leaves when [spawn] returned a child. *)
Definition started_runner : SeshatRunner.t :=
  SeshatRunner.mkRunner (Some (SeshatRunner.mkChild false true)) true.

(** The calls of [runner.run] among the effects. *)
Definition runner_runs (effects : list Effect) : list (jsstring * jsstring) :=
  flat_map (fun e => match e with RunnerRun cwd exe => [(cwd, exe)] | _ => [] end)
    effects.

(** The calls of [runner.kill] among the effects. *)
Definition runner_kills (effects : list Effect) : nat :=
  List.length
    (List.filter (fun e => match e with RunnerKill => true | _ => false end)
       effects).

(** The calls of [showCommitActions] among the effects. *)
Definition commit_actions (effects : list Effect)
  : list (bool * option jsstring) :=
  flat_map
    (fun e => match e with PanelShowCommitActions v p => [(v, p)] | _ => [] end)
    effects.

(** The notifications shown through [vscode.window] among the effects. *)
Definition notifications (effects : list Effect) : list Effect :=
  List.filter
    (fun e =>
       match e with
       | ShowErrorMessage _ | ShowInformationMessage _ | ShowWarningMessage _ =>
           true
       | _ => false
       end) effects.

(** The calls of [postSystemOutput] among the effects. *)
Definition system_outputs (effects : list Effect) : list (jsstring * jsstring) :=
  flat_map
    (fun e => match e with PanelPostSystemOutput t o => [(t, o)] | _ => [] end)
    effects.

(** Two captured streams as one text: the first, a line feed, the second;
    an empty stream is left out together with the line feed. *)
Definition two_streams (first second : jsstring) : jsstring :=
  match first, second with
  | [], _ => second
  | _, [] => first
  | _, _ => first ++ 10%N :: second
  end.

(** The reason that a failed manual commit is reported with. *)
Definition failure_reason (settle : GitSettle) : jsstring :=
  match settle with
  | GitClosed code _ _ => text_git_exit code
  | GitChildError message _ _ => message
  | GitSpawnThrew message => message
  end.

(** The manual commit ended with exit code 0. *)
Definition exited_zero (settle : GitSettle) : bool :=
  match settle with
  | GitClosed (Some 0%Z) _ _ => true
  | _ => false
  end.

(** The two streams captured until the settlement; none when [spawn]
    threw. *)
Definition captured (settle : GitSettle) : jsstring * jsstring :=
  match settle with
  | GitClosed _ stdout stderr => (stdout, stderr)
  | GitChildError _ stdout stderr => (stdout, stderr)
  | GitSpawnThrew _ => ([], [])
  end.

(** The inputs that come from the runner through its listeners, and from the
    panel through its message emitter. *)
Definition from_runner (i : Input) : bool :=
  match i with
  | RunnerEvent _ | RunnerStderr _ | RunnerError _ | RunnerClose _
  | RunnerStdinEnd => true
  | _ => false
  end.

Definition from_panel (i : Input) : bool :=
  match i with
  | PanelMessage _ | PanelDisposed => true
  | _ => false
  end.

(** The inputs after which no field of the session may differ: answers of
    dialogs, timers, and the notifications of the runner that carry no
    event. *)
Definition passive (i : Input) : bool :=
  match i with
  | RunnerStderr _ | RunnerError _ | RunnerStdinEnd
  | WarningModalClosed _ _ | QuickPickClosed _ _ | TimerFired _ => true
  | _ => false
  end.

(** A suspended quick pick offers at least one choice. *)
Definition offers_a_choice (t : Task) : bool :=
  match t with
  | AwaitQuickPick [] _ => false
  | _ => true
  end.

(** Further invariants of the loop. *)
Record session_invariant (w : World) : Prop := mkSessionInvariant {
  (* a runner is attached only after the workspace root was recorded *)
  inv_root : attached w = true -> workspacePath (ctl w) <> None;
  (* a commit prompt is awaited only once a message is ready *)
  inv_ready : waitingForCommitConfirmation (ctl w) = true ->
              hasMessageReady (ctl w) = true;
  (* every quick pick that is open offers a choice *)
  inv_choices : forallb offers_a_choice (pending w) = true
}.

End Session.

(* ------------------------------------------------------------------------- *)
(** * [SeshatPanel]: the webview and its messages *)

Module SeshatPanel.

Import Controller.

(** ** Messages of the webview to the extension *)

(** [obj[key]] on an object: the value of the last member of that name. *)
Fixpoint member_value (key : jsstring) (members : list (jsstring * Json.value))
  : option Json.value :=
  match members with
  | [] => None
  | (k, v) :: rest =>
      match member_value key rest with
      | Some later => Some later
      | None => if Js.eqb k key then Some v else None
      end
  end.

Definition property (key : jsstring) (v : Json.value) : option Json.value :=
  match v with
  | Json.JObject members => member_value key members
  | _ => None
  end.

(** [value === text] for a string literal [text]. *)
Definition is_string (text : jsstring) (value : option Json.value) : bool :=
  match value with
  | Some (Json.JString s) => Js.eqb s text
  | _ => false
  end.

(** The listener that the constructor puts on [webview.onDidReceiveMessage]:
    the message that it fires on its own emitter, if any. *)
Definition onWebviewMessage (message : Json.value)
  : option PanelMessageFromWebview :=
  if negb (Json.is_object message)
     || negb (Json.has_word_key (str "type") message)
  then None
  else
    let type := property (str "type") message in
    if is_string (str "confirm") type then Some confirm
    else if is_string (str "cancel") type then Some cancel
    else if is_string (str "messageEdited") type then
      let text := property (str "message") message in
      Some (messageEdited
              match text with
              | Some (Json.JString s) => s
              | _ => []
              end)
    else None.

(** What the script of the webview posts: on a click of the confirm button,
    on a click of the cancel button, and on input in the text area. *)
Definition posted (m : PanelMessageFromWebview) : Json.value :=
  match m with
  | confirm => Json.JObject [ (str "type", Json.JString (str "confirm")) ]
  | cancel => Json.JObject [ (str "type", Json.JString (str "cancel")) ]
  | messageEdited value =>
      Json.JObject [ (str "type", Json.JString (str "messageEdited"));
                     (str "message", Json.JString value) ]
  end.

(** ** [createNonce] *)

Definition nonce_chars : jsstring :=
  str "ABCDEFGHIJKLMNOPQRSTUVWXYZabcdefghijklmnopqrstuvwxyz0123456789".

(** [s.charAt(i)]: the empty string out of range. *)
Definition charAt (s : jsstring) (i : nat) : jsstring :=
  match nth_error s i with
  | Some c => [c]
  | None => []
  end.

(** The loop of [createNonce] from round [i], with [rounds] rounds to go;
    [draw i] is the index drawn in round [i], the value of
    [Math.floor(Math.random() * chars.length)]. *)
Fixpoint nonce_loop (draw : nat -> nat) (rounds i : nat) (value : jsstring)
  : jsstring :=
  match rounds with
  | O => value
  | S rounds' =>
      nonce_loop draw rounds' (S i) (value ++ charAt nonce_chars (draw i))
  end.

Definition createNonce (draw : nat -> nat) : jsstring :=
  nonce_loop draw 32 0 [].

Definition is_alphanumeric (c : N) : bool :=
  (((65 <=? c) && (c <=? 90)) || ((97 <=? c) && (c <=? 122))
   || ((48 <=? c) && (c <=? 57)))%N.

(** ** [renderReview] of the script of the webview *)

(** [text.split(/\r?\n/)]: the pieces between the line ends, where a line
    end is a line feed with the carriage return before it, if there is one.
    [current] holds the piece being read, backwards. *)
Fixpoint split_lines (text : jsstring) (current : jsstring) : list jsstring :=
  match text with
  | [] => [rev current]
  | 13%N :: 10%N :: rest => rev current :: split_lines rest []
  | 10%N :: rest => rev current :: split_lines rest []
  | c :: rest => split_lines rest (c :: current)
  end.

(** [s.includes(pat)] *)
Fixpoint starts_with (pat s : jsstring) : bool :=
  match pat, s with
  | [], _ => true
  | _ :: _, [] => false
  | p :: pat', c :: s' => (p =? c)%N && starts_with pat' s'
  end.

Fixpoint includes (pat s : jsstring) : bool :=
  starts_with pat s ||
  match s with
  | [] => false
  | _ :: s' => includes pat s'
  end.

(** [items.join(', ')] *)
Fixpoint join_comma (items : list jsstring) : jsstring :=
  match items with
  | [] => []
  | [item] => item
  | item :: rest => item ++ str ", " ++ join_comma rest
  end.

(** [s] has no line feed in it. *)
Definition one_line (s : jsstring) : bool :=
  forallb (fun c => negb (c =? 10)%N) s.

(** The classes of a row besides [review-line]. *)
Inductive ReviewClass : Type :=
| review_plain
| review_bug
| review_smell.

Section Review.

(** [String.prototype.toUpperCase], a built-in of the language. *)
Variable toUpperCase : jsstring -> jsstring.

(** The rows that [renderReview(text, files)] appends, in order: one per
    line of the review, then the row of the files when there are any. *)
Definition renderReview (text : jsstring) (files : list jsstring)
  : list (ReviewClass * jsstring) :=
  let lines := List.filter truthy (split_lines text []) in
  let lines := match lines with [] => [str "(sem detalhes)"] | _ => lines end in
  List.map
    (fun line =>
       let upper := toUpperCase line in
       (if includes (str "[BUG]") upper then review_bug
        else if includes (str "[SMELL]") upper then review_smell
        else review_plain, line))
    lines
  ++ match files with
     | [] => []
     | _ => [(review_plain, str "Arquivos: " ++ join_comma files)]
     end.

End Review.

(** ** The commit box of the webview *)

(** The part of the document that the commit box is made of: the section
    [message-box], the text area, the prompt line and the two buttons in
    [actions], with [state.suggestedMessage].  The log, the lists and the
    status line are other elements and are not part of it. *)
Record CommitBox : Type := mkBox {
  box_displayed : bool;        (* messageBoxEl.style.display is block *)
  input_value : jsstring;      (* messageInputEl.value *)
  confirm_prompt : jsstring;   (* confirmPromptEl.textContent *)
  actions_displayed : bool;    (* actionsEl.style.display is flex *)
  view_suggested : jsstring    (* state.suggestedMessage *)
}.

(** The document as the HTML has it. *)
Definition loaded : CommitBox :=
  {| box_displayed := false; input_value := []; confirm_prompt := [];
     actions_displayed := false; view_suggested := [] |}.

(** [setCommitMessage(message, suggested)] of the script *)
Definition view_setCommitMessage (message suggested : jsstring) (b : CommitBox)
  : CommitBox :=
  {| box_displayed := true;
     input_value := message;
     confirm_prompt := confirm_prompt b;
     actions_displayed := actions_displayed b;
     view_suggested := if truthy suggested then suggested else message |}.

(** [showCommitActions(visible, prompt)] of the script *)
Definition view_showCommitActions (visible : bool) (prompt : jsstring)
    (b : CommitBox) : CommitBox :=
  {| box_displayed := box_displayed b;
     input_value := input_value b;
     confirm_prompt := prompt;
     actions_displayed := visible;
     view_suggested := view_suggested b |}.

(** [resetView()] of the script, on the commit box. *)
Definition view_resetView (b : CommitBox) : CommitBox :=
  {| box_displayed := false; input_value := []; confirm_prompt := [];
     actions_displayed := false; view_suggested := [] |}.

(** [String(event.event || 'info')] *)
Definition event_name (event : SeshatEvent) : jsstring :=
  match event with
  | message_ready _ => str "message_ready"
  | confirm_needed _ _ => str "confirm_needed"
  | choice_needed _ _ _ => str "choice_needed"
  | committed _ => str "committed"
  | cancelled _ => str "cancelled"
  | error _ => str "error"
  | other kind => if truthy kind then kind else str "info"
  end.

(** The branch of the listener of [window] for a message of type
    [seshat-event], on the commit box: of all the event names only
    [message_ready], [committed] and [cancelled] touch it. *)
Definition view_seshat_event (event : SeshatEvent) (b : CommitBox) : CommitBox :=
  if Js.eqb (event_name event) (str "message_ready") then
    let value := match event with message_ready m => m | _ => [] end in
    view_setCommitMessage value value b
  else if Js.eqb (event_name event) (str "committed") then
    view_showCommitActions false [] b
  else if Js.eqb (event_name event) (str "cancelled") then
    view_showCommitActions false [] b
  else b.

(** What a call on the panel does to the commit box of its webview: the
    method of [SeshatPanel] posts a message, and the listener of [window]
    dispatches on its type. *)
Definition deliver (e : Effect) (b : CommitBox) : CommitBox :=
  match e with
  | PanelSetCommitMessage message suggested =>
      view_setCommitMessage message suggested b
  | PanelShowCommitActions visible prompt =>
      view_showCommitActions visible
        (match prompt with Some p => p | None => [] end) b
  | PanelReset => view_resetView b
  | PanelPostSeshatEvent event => view_seshat_event event b
  | _ => b
  end.

(** The webview through one list of effects: created with the panel, gone
    with it. *)
Definition show (view : option CommitBox) (e : Effect) : option CommitBox :=
  match e with
  | PanelCreate => Some loaded
  | PanelDispose => None
  | _ => option_map (deliver e) view
  end.

(** What the operator does in the webview before the extension hears of it:
    typing changes the text area, closing the panel ends the webview. *)
Definition operate (i : Input) (view : option CommitBox) : option CommitBox :=
  match i with
  | PanelDisposed => None
  | PanelMessage (messageEdited value) =>
      option_map
        (fun b => mkBox (box_displayed b) value (confirm_prompt b)
                    (actions_displayed b) (view_suggested b))
        view
  | _ => view
  end.

(** One turn of the loop with the webview that shows it: what the turn posts
    to the webview is delivered, in order, before the next input is taken. *)
Definition step_shown (w : World) (view : option CommitBox) (i : Input)
  : option (World * option CommitBox) :=
  match step w i with
  | Some (w', effects) => Some (w', fold_left show effects (operate i view))
  | None => None
  end.

(** The controller and its webview, from the first state on. *)
Inductive reachable_shown : World -> option CommitBox -> Prop :=
| shown_start : reachable_shown start None
| shown_step (w w' : World) (view view' : option CommitBox) (i : Input) :
    reachable_shown w view ->
    step_shown w view i = Some (w', view') ->
    reachable_shown w' view'.

Fixpoint run_shown (w : World) (view : option CommitBox) (inputs : list Input)
  : option (World * option CommitBox) :=
  match inputs with
  | [] => Some (w, view)
  | i :: rest =>
      match step_shown w view i with
      | Some (w', view') => run_shown w' view' rest
      | None => None
      end
  end.

(** What holds between the controller and its webview. *)
Record shown_invariant (w : World) (view : option CommitBox) : Prop :=
  mkShownInvariant {
  (* there is a webview only while the controller has its panel *)
  shown_panel : view <> None -> panel (ctl w) = true;
  (* the buttons are displayed only while the commit prompt is awaited *)
  shown_buttons :
    match view with Some b => actions_displayed b | None => false end = true ->
    waitingForCommitConfirmation (ctl w) = true
}.

(** The controller and the webview after a list of inputs from the first
    state; the first state again if the list is not a run. *)
Definition after_shown (inputs : list Input) : World * option CommitBox :=
  match run_shown start None inputs with
  | Some result => result
  | None => (start, None)
  end.

Definition runs_shown (inputs : list Input) : bool :=
  match run_shown start None inputs with Some _ => true | None => false end.

(** The buttons of the commit box can be clicked. *)
Definition buttons_displayed (view : option CommitBox) : bool :=
  match view with
  | Some b => actions_displayed b
  | None => false
  end.

End SeshatPanel.

(* ------------------------------------------------------------------------- *)
(** * Facts about strings *)

Module JsFacts.

Lemma eqb_eq (a b : jsstring) : Js.eqb a b = true <-> a = b.
Proof.
  unfold Js.eqb. destruct (list_eq_dec N.eq_dec a b); split; congruence.
Qed.

Lemma eqb_refl (a : jsstring) : Js.eqb a a = true.
Proof. now apply eqb_eq. Qed.

Lemma eqb_neq (a b : jsstring) : Js.eqb a b = false <-> a <> b.
Proof.
  unfold Js.eqb. destruct (list_eq_dec N.eq_dec a b); split; congruence.
Qed.

Lemma truthy_false (s : jsstring) : truthy s = false <-> s = [].
Proof. destruct s; simpl; split; congruence. Qed.

Lemma truthy_true (s : jsstring) : truthy s = true <-> s <> [].
Proof. destruct s; simpl; split; congruence. Qed.

(** [trimStart] leaves nothing exactly of the strings of white space. *)
Lemma trimStart_nil (s : jsstring) :
  trimStart s = [] <-> forallb is_white_space s = true.
Proof.
  induction s as [| c s IH]; simpl.
  - tauto.
  - destruct (is_white_space c); simpl.
    + exact IH.
    + split; discriminate.
Qed.

(** What [trimStart] leaves is a suffix of the string. *)
Lemma trimStart_suffix (s : jsstring) :
  exists blank, s = blank ++ trimStart s /\ forallb is_white_space blank = true.
Proof.
  induction s as [| c s IH]; simpl.
  - exists []. split; reflexivity.
  - destruct (is_white_space c) eqn:Hc.
    + destruct IH as [blank [Heq Hb]].
      exists (c :: blank). simpl. rewrite Hc, Hb. split; [congruence | reflexivity].
    + exists []. split; reflexivity.
Qed.

Lemma forallb_rev (f : N -> bool) (s : jsstring) :
  forallb f (rev s) = forallb f s.
Proof.
  induction s as [| c s IH]; simpl; [reflexivity |].
  rewrite forallb_app, IH. simpl. rewrite andb_true_r. apply andb_comm.
Qed.

(** A line is blank, that is made of white space only, exactly when [trim]
    leaves nothing of it. *)
Lemma trim_nil (s : jsstring) :
  trim s = [] <-> forallb is_white_space s = true.
Proof.
  unfold trim, trimEnd. split.
  - intros H.
    assert (Hr : trimStart (rev (trimStart s)) = []).
    { apply (f_equal (@rev N)) in H. rewrite rev_involutive in H. exact H. }
    apply trimStart_nil in Hr. rewrite forallb_rev in Hr.
    destruct (trimStart_suffix s) as [blank [Heq Hb]].
    rewrite Heq, forallb_app, Hb, Hr. reflexivity.
  - intros H. apply trimStart_nil in H. rewrite H. reflexivity.
Qed.

(** [canonicalize] identifies a lower-case ASCII letter with itself and with
    its upper-case letter, and with nothing else. *)
Lemma canonicalize_letter (p c : N) :
  (97 <= p <= 122)%N ->
  canonicalize c = canonicalize p <-> c = p \/ c = (p - 32)%N.
Proof.
  intros Hp. unfold canonicalize.
  destruct (N.leb_spec 97 c), (N.leb_spec c 122),
    (N.leb_spec 97 p), (N.leb_spec p 122); simpl; lia.
Qed.

(** [matches_at pat s]: some prefix of [s] is [pat] up to letter case. *)
Lemma matches_at_spec (pat s : jsstring) :
  matches_at pat s = true <->
  exists mid post,
    s = mid ++ post /\ List.map canonicalize mid = List.map canonicalize pat.
Proof.
  revert s. induction pat as [| p pat IH]; intros s; simpl.
  - split; [intros _ | reflexivity]. exists [], s. split; reflexivity.
  - destruct s as [| c s].
    + split; [discriminate |]. intros (mid & post & Heq & Hmap).
      destruct mid; [discriminate Hmap | discriminate Heq].
    + rewrite andb_true_iff, N.eqb_eq, IH. split.
      * intros [Hc (mid & post & -> & Hmap)].
        exists (c :: mid), post. split; [reflexivity |].
        simpl. now rewrite Hmap, Hc.
      * intros (mid & post & Heq & Hmap).
        destruct mid as [| m mid]; [discriminate Hmap |].
        simpl in Heq, Hmap. injection Heq as -> ->. injection Hmap as Hc Hmap.
        split; [congruence |]. now exists mid, post.
Qed.

(** [test_i pat s]: [s] contains [pat] somewhere, up to letter case. *)
Lemma test_i_spec (pat s : jsstring) :
  test_i pat s = true <-> contains_ignoring_case pat s.
Proof.
  unfold contains_ignoring_case.
  induction s as [| c s IH].
  - simpl. rewrite orb_false_r, matches_at_spec. split.
    + intros (mid & post & Heq & Hmap). now exists [], mid, post.
    + intros (pre & mid & post & Heq & Hmap).
      destruct pre; [| discriminate Heq]. now exists mid, post.
  - change (test_i pat (c :: s))
      with (matches_at pat (c :: s) || test_i pat s).
    rewrite orb_true_iff, matches_at_spec, IH. split.
    + intros [(mid & post & Heq & Hmap) | (pre & mid & post & Heq & Hmap)].
      * now exists [], mid, post.
      * exists (c :: pre), mid, post. split; [simpl; congruence | exact Hmap].
    + intros (pre & mid & post & Heq & Hmap).
      destruct pre as [| c' pre].
      * left. now exists mid, post.
      * right. simpl in Heq. injection Heq as -> ->. now exists pre, mid, post.
Qed.

End JsFacts.

(* ------------------------------------------------------------------------- *)
(** * The transport: line decoding and the process handle *)

Module RunnerProofs.

Import SeshatRunner.

(** ** Line decoding *)

Lemma has_word_key_In (key : jsstring) (members : list (jsstring * Json.value)) :
  Json.has_word_key key (Json.JObject members) = true <->
  In key (List.map fst members).
Proof.
  simpl. rewrite existsb_exists. split.
  - intros [m [Hin Heq]]. apply JsFacts.eqb_eq in Heq. subst key.
    now apply in_map.
  - intros Hin. apply in_map_iff in Hin. destruct Hin as [m [Heq Hin]].
    exists m. split; [exact Hin |]. apply JsFacts.eqb_eq. exact Heq.
Qed.

Lemma carries_event_spec (v : Json.value) :
  Json.is_object v && Json.has_word_key (str "event") v = true <->
  exists members, v = Json.JObject members /\ In (str "event") (List.map fst members).
Proof.
  split.
  - intros H. apply andb_prop in H. destruct H as [_ Hk].
    destruct v as [| b | l | s | items | members]; try discriminate.
    exists members. split; [reflexivity |]. now apply has_word_key_In.
  - intros [members [-> Hin]]. apply has_word_key_In in Hin.
    simpl in *. exact Hin.
Qed.

(** C6, as the handler decides it.  For every line of standard output and
    whatever [JSON.parse] answers: a blank line (white space only) emits
    nothing; a line whose trimmed text parses as a JSON object with an
    [event] member is emitted as parsed; every other line that is not blank
    (text that does not parse, or a parsed value that is not an object with
    an [event] member) is emitted as the [info] event whose message is the
    trimmed line. *)
Theorem C6_stdout_line_decoding :
  forall (JSON_parse : jsstring -> option Json.value) (line : jsstring),
    (forallb is_white_space line = true ->
     on_stdout_line JSON_parse line = None)
    /\
    (forall members,
        forallb is_white_space line = false ->
        JSON_parse (trim line) = Some (Json.JObject members) ->
        In (str "event") (List.map fst members) ->
        on_stdout_line JSON_parse line = Some (Json.JObject members))
    /\
    (forallb is_white_space line = false ->
     (JSON_parse (trim line) = None \/
      exists v, JSON_parse (trim line) = Some v /\
                ~ (exists members, v = Json.JObject members /\
                                   In (str "event") (List.map fst members))) ->
     on_stdout_line JSON_parse line =
       Some (Json.JObject [ (str "event", Json.JString (str "info"));
                            (str "message", Json.JString (trim line)) ])).
Proof.
  intros JSON_parse line. unfold on_stdout_line.
  repeat split.
  - intros Hblank. apply JsFacts.trim_nil in Hblank. now rewrite Hblank.
  - intros members Hnb Hparse Hin.
    assert (Ht : truthy (trim line) = true).
    { apply JsFacts.truthy_true. intros Hnil.
      apply JsFacts.trim_nil in Hnil. congruence. }
    rewrite Ht, Hparse. simpl negb. cbv iota.
    assert (Hc : Json.is_object (Json.JObject members)
                 && Json.has_word_key (str "event") (Json.JObject members) = true).
    { apply carries_event_spec. now exists members. }
    now rewrite Hc.
  - intros Hnb Hother.
    assert (Ht : truthy (trim line) = true).
    { apply JsFacts.truthy_true. intros Hnil.
      apply JsFacts.trim_nil in Hnil. congruence. }
    rewrite Ht. simpl negb. cbv iota.
    destruct Hother as [Hnone | [v [Hsome Hnot]]].
    + now rewrite Hnone.
    + rewrite Hsome.
      destruct (Json.is_object v && Json.has_word_key (str "event") v) eqn:Hc.
      * exfalso. apply Hnot. now apply carries_event_spec.
      * reflexivity.
Qed.

(** The three cases of the decoder on three lines, with the reader of this
    file as [JSON.parse]. *)
Lemma C6_stdout_line_decoding_witness :
  on_stdout_line Json.parse (str "   ") = None
  /\ on_stdout_line Json.parse line_event_step = Some value_event_step
  /\ on_stdout_line Json.parse (str " not json ") =
       Some (Json.JObject [ (str "event", Json.JString (str "info"));
                            (str "message", Json.JString (str "not json")) ]).
Proof.
  split; [| split].
  - apply (C6_stdout_line_decoding Json.parse (str "   ")). reflexivity.
  - apply (C6_stdout_line_decoding Json.parse line_event_step).
    + reflexivity.
    + reflexivity.
    + simpl. left. reflexivity.
  - apply (proj2 (proj2 (C6_stdout_line_decoding Json.parse (str " not json ")))).
    + reflexivity.
    + left. reflexivity.
Defined.

(** The line [{"kind":"step"}] parses as a JSON object that carries a [kind]
    member, and the handler does not emit that object: it emits the [info]
    wrapper of the raw line. *)
Lemma C6_kind_member_counterexample :
  exists members,
    Json.parse (trim line_kind_step) = Some (Json.JObject members)
    /\ In (str "kind") (List.map fst members)
    /\ on_stdout_line Json.parse line_kind_step <> Some (Json.JObject members)
    /\ on_stdout_line Json.parse line_kind_step =
         Some (Json.JObject [ (str "event", Json.JString (str "info"));
                              (str "message", Json.JString line_kind_step) ]).
Proof.
  exists [ (str "kind", Json.JString (str "step")) ].
  split; [reflexivity |]. split; [simpl; left; reflexivity |].
  split; [| reflexivity].
  vm_compute. discriminate.
Qed.

(** The reader on a few texts: nesting, a number with a leading zero, text
    after the value, an escaped key. *)
Example parse_nested :
  Json.parse (str "[1,[2,[3,[]]],{" ++ quoted "a" ++ str ":[true,null]}]")
  = Some (Json.JArray
            [ Json.JNumber (str "1");
              Json.JArray [ Json.JNumber (str "2");
                            Json.JArray [Json.JNumber (str "3"); Json.JArray []] ];
              Json.JObject [ (str "a", Json.JArray [Json.JBool true; Json.JNull]) ] ]).
Proof. vm_compute. reflexivity. Qed.

Example parse_leading_zero : Json.parse (str "01") = None.
Proof. vm_compute. reflexivity. Qed.

Example parse_trailing_text : Json.parse (str "{} x") = None.
Proof. vm_compute. reflexivity. Qed.

Example parse_escaped_key :
  Json.parse (str "{" ++ 34%N :: 92%N :: str "u0065vent" ++ 34%N :: str ":1}")
  = Some (Json.JObject [ (str "event", Json.JNumber (str "1")) ]).
Proof. vm_compute. reflexivity. Qed.

(** ** The process handle *)

Lemma exec_app (before after : list Call) :
  exec (before ++ after) = fold_left call after (exec before).
Proof. unfold exec. apply fold_left_app. Qed.

Lemma exec_snoc (calls : list Call) (c : Call) :
  exec (calls ++ [c]) = call (exec calls) c.
Proof. now rewrite exec_app. Qed.

Lemma isRunning_process (r : t) :
  isRunning r = true -> process r <> None.
Proof. unfold isRunning. destruct (process r); [discriminate | discriminate]. Qed.

Lemma call_keeps_running (r : t) (c : Call) :
  isRunning r = true -> ~ ends_running c -> isRunning (call r c) = true.
Proof.
  unfold isRunning, ends_running. intros Hr Hc.
  destruct r as [[[k w] |] rd]; simpl in Hr; [| discriminate].
  destruct k; [discriminate |].
  destruct c as [ok | text | [|] | |];
    try (exfalso; apply Hc; tauto); reflexivity.
Qed.

Lemma call_keeps_process (r : t) (c : Call) :
  process r <> None -> c <> ChildClose -> process (call r c) <> None.
Proof.
  intros Hr Hc.
  destruct r as [[[k w] |] rd]; simpl in Hr; [| congruence].
  destruct c as [ok | text | d | |]; simpl; try discriminate.
  - unfold run, isRunning. simpl. destruct k, ok; simpl; discriminate.
  - unfold kill. simpl. destruct k; simpl; discriminate.
  - congruence.
Qed.

Lemma run_keeps_running (after : list Call) (r : t) :
  isRunning r = true -> Forall (fun c => ~ ends_running c) after ->
  isRunning (fold_left call after r) = true.
Proof.
  revert r. induction after as [| c after IH]; intros r Hr Hall; simpl.
  - exact Hr.
  - inversion Hall as [| c' after' Hc Hrest]; subst.
    apply IH; [| exact Hrest]. now apply call_keeps_running.
Qed.

Lemma run_keeps_process (after : list Call) (r : t) :
  process r <> None -> Forall (fun c => c <> ChildClose) after ->
  process (fold_left call after r) <> None.
Proof.
  revert r. induction after as [| c after IH]; intros r Hr Hall; simpl.
  - exact Hr.
  - inversion Hall as [| c' after' Hc Hrest]; subst.
    apply IH; [| exact Hrest]. now apply call_keeps_process.
Qed.

(** A [run] that starts a child: the runner was not running and [spawn]
    returned. *)
Lemma run_starts (r : t) :
  isRunning r = false -> isRunning (call r (Run true)) = true.
Proof. intros Hr. simpl. unfold run. rewrite Hr. reflexivity. Qed.

(** Every call other than a run that starts a child leaves [isRunning]
    true only where it was true. *)
Lemma call_running_inv (r : t) (c : Call) :
  isRunning (call r c) = true ->
  (c = Run true /\ isRunning r = false) \/
  (isRunning r = true /\ ~ ends_running c).
Proof.
  unfold ends_running. intros H.
  destruct c as [ok | text | d | |]; simpl in H.
  - unfold run in H. destruct (isRunning r) eqn:Hr.
    + right. split; [reflexivity |]. intros [Hc | Hc]; discriminate.
    + destruct ok; simpl in H; [left; now split | congruence].
  - right. split; [exact H |]. intros [Hc | Hc]; discriminate.
  - right. unfold kill, isRunning in *.
    destruct r as [[[k w] |] rd]; simpl in *; [| discriminate].
    destruct k; simpl in *; [discriminate |].
    destruct d; simpl in *; [discriminate |].
    split; [reflexivity |]. intros [Hc | Hc]; discriminate.
  - discriminate.
  - right. unfold on_stdin_end, isRunning in *.
    destruct r as [[[k w] |] rd]; simpl in *; [| discriminate].
    split; [exact H |]. intros [Hc | Hc]; discriminate.
Qed.

Lemma call_process_inv (r : t) (c : Call) :
  process (call r c) <> None ->
  (c = Run true /\ isRunning r = false) \/
  (process r <> None /\ c <> ChildClose).
Proof.
  intros H.
  destruct c as [ok | text | d | |]; simpl in H.
  - unfold run in H. destruct (isRunning r) eqn:Hr.
    + right. split; [exact H | discriminate].
    + destruct ok; simpl in H; [left; now split |].
      right. split; [exact H | discriminate].
  - right. split; [exact H | discriminate].
  - right. split; [| discriminate].
    destruct r as [[[k w] |] rd]; simpl in *; [discriminate | exact H].
  - congruence.
  - right. split; [| discriminate].
    destruct r as [[[k w] |] rd]; simpl in *; [discriminate | exact H].
Qed.

(** C7, as the code has it.  Over every sequence of calls and child
    notifications: [isRunning()] is true exactly when some [run] started a
    child and, since then, neither the [close] notification arrived nor a
    [kill()] delivered its signal; the handle exists exactly when some [run]
    started a child and no [close] notification arrived since; and right
    after a delivered [kill()], [isRunning()] is false. *)
Theorem C7_isRunning_live_and_not_killed :
  forall calls : list Call,
    (isRunning (exec calls) = true <->
     exists before after,
       calls = before ++ Run true :: after
       /\ isRunning (exec before) = false
       /\ Forall (fun c => c <> ChildClose /\ c <> Kill true) after)
    /\
    (process (exec calls) <> None <->
     exists before after,
       calls = before ++ Run true :: after
       /\ isRunning (exec before) = false
       /\ Forall (fun c => c <> ChildClose) after)
    /\
    isRunning (exec (calls ++ [Kill true])) = false.
Proof.
  intros calls. split; [| split].
  - split.
    + induction calls as [| c calls IH] using rev_ind.
      * discriminate.
      * rewrite exec_snoc. intros H.
        destruct (call_running_inv _ _ H) as [[-> Hr] | [Hr Hc]].
        -- exists calls, []. repeat split; [exact Hr | constructor].
        -- destruct (IH Hr) as [before [after [-> [Hb Hall]]]].
           exists before, (after ++ [c]). repeat split.
           ++ now rewrite <- app_assoc.
           ++ exact Hb.
           ++ apply Forall_app. split; [exact Hall |].
              constructor; [| constructor].
              unfold ends_running in Hc. split; intros ->; apply Hc; tauto.
    + intros [before [after [-> [Hb Hall]]]].
      rewrite exec_app. simpl fold_left.
      apply run_keeps_running; [now apply run_starts |].
      eapply Forall_impl; [| exact Hall].
      unfold ends_running. intros c [Hc1 Hc2] [H | H]; contradiction.
  - split.
    + induction calls as [| c calls IH] using rev_ind.
      * intros H. now elim H.
      * rewrite exec_snoc. intros H.
        destruct (call_process_inv _ _ H) as [[-> Hr] | [Hr Hc]].
        -- exists calls, []. repeat split; [exact Hr | constructor].
        -- destruct (IH Hr) as [before [after [-> [Hb Hall]]]].
           exists before, (after ++ [c]). repeat split.
           ++ now rewrite <- app_assoc.
           ++ exact Hb.
           ++ apply Forall_app. split; [exact Hall |].
              constructor; [exact Hc | constructor].
    + intros [before [after [-> [Hb Hall]]]].
      rewrite exec_app. simpl fold_left.
      apply run_keeps_process; [| exact Hall].
      apply isRunning_process. now apply run_starts.
  - rewrite exec_snoc.
    destruct (exec calls) as [[[k w] |] rd]; [destruct k |]; reflexivity.
Qed.

(** A runner that spawned, was written to and saw its child close its input
    is running and has its handle. *)
Lemma C7_isRunning_live_and_not_killed_witness :
  isRunning (exec [Run true; Respond (str "y"); ChildStdinEnd]) = true
  /\ process (exec [Run true; Respond (str "y"); ChildStdinEnd]) <> None.
Proof.
  split.
  - apply (proj1 (C7_isRunning_live_and_not_killed
                    [Run true; Respond (str "y"); ChildStdinEnd])).
    exists [], [Respond (str "y"); ChildStdinEnd].
    split; [reflexivity |]. split; [reflexivity |].
    repeat constructor; discriminate.
  - apply (proj1 (proj2 (C7_isRunning_live_and_not_killed
                           [Run true; Respond (str "y"); ChildStdinEnd]))).
    exists [], [Respond (str "y"); ChildStdinEnd].
    split; [reflexivity |]. split; [reflexivity |].
    repeat constructor; discriminate.
Defined.

(** After [run] and a delivered [kill()], with no [close] notification yet,
    the handle exists and has not reported termination, and [isRunning()]
    is false: running and having an open handle are not the same there. *)
Lemma C7_kill_before_close_counterexample :
  let calls := [Run true; Kill true] in
  process (exec calls) <> None
  /\ ~ In ChildClose calls
  /\ isRunning (exec calls) = false
  /\ ~ (isRunning (exec calls) = true <->
        (process (exec calls) <> None /\ ~ In ChildClose calls)).
Proof.
  simpl. repeat split.
  - discriminate.
  - intros [H | [H | []]]; discriminate.
  - intros [_ H].
    assert (Hf : false = true); [| discriminate Hf].
    apply H. split; [discriminate |].
    intros [H1 | [H1 | []]]; discriminate.
Qed.

End RunnerProofs.

(* ------------------------------------------------------------------------- *)
(** * The commit workflow *)

Module ControllerProofs.

Import Controller.

Arguments trim : simpl never.
Arguments test_i : simpl never.
Arguments Js.eqb : simpl never.
Arguments str : simpl never.
Arguments filter_join : simpl never.
Arguments without : simpl never.
Arguments nth_error : simpl never.
Arguments truthy : simpl never.
Arguments yesLabel : simpl never.
Arguments noLabel : simpl never.

(** ** Tactics for one turn of the loop *)

(** Split on the innermost test that blocks a computation in [H]. *)
Ltac split_test H :=
  match type of H with
  | context [match ?x with _ => _ end] =>
      lazymatch x with
      | context [match _ with _ => _ end] => fail
      | _ => destruct x eqn:?
      end
  end.

Ltac unfold_methods H :=
  unfold step, invoke, startCommit, handleSeshatEvent, handlePanelMessage,
    handleCommitConfirmation, resumeCommitConfirmation, resumeConfirmNeeded,
    resumeChoiceNeeded, handleConfirmNeeded, handleChoiceNeeded,
    handleCommitted, handleCancelled, handleMessageReady, handleRunnerClose,
    dispose, onPanelDidDispose, stopRunner, cleanupRunner, getOrCreatePanel,
    schedulePanelReset, runner_respond, on_panel, bind, ret, get, assign,
    emit, these, no_task in H.

Ltac run_step H :=
  unfold_methods H; cbn in H;
  repeat (split_test H; cbn in H; try discriminate H);
  try (injection H as <- <-).

(** ** Invariants of the loop *)

Lemma existsb_without (f : Task -> bool) (n : nat) (tasks : list Task) (t : Task) :
  nth_error tasks n = Some t -> f t = false ->
  existsb f (without n tasks) = existsb f tasks.
Proof.
  unfold without. revert tasks.
  induction n as [| n IH]; intros [| t' tasks] Hn Ht; try discriminate.
  - injection Hn as ->. simpl. now rewrite Ht.
  - simpl. f_equal. now apply IH.
Qed.

Lemma existsb_snoc (f : Task -> bool) (tasks more : list Task) :
  existsb f tasks = true -> existsb f (tasks ++ more) = true.
Proof. intros H. rewrite existsb_app, H. reflexivity. Qed.

Lemma invariant_start : invariant start.
Proof. constructor; simpl; intros; discriminate. Qed.

Lemma invariant_step (w w' : World) (i : Input) (effects : list Effect) :
  invariant w -> step w i = Some (w', effects) -> invariant w'.
Proof.
  intros [Hp Hl Hw Hr] Hstep.
  destruct w as [[p r wp sm em ready waiting replacing saw] pend].
  unfold attached in *. cbn in Hp, Hl, Hw, Hr.
  destruct i; run_step Hstep.
  all: constructor; unfold attached; cbn.
  all: try (intros; discriminate).
  all: try assumption.
  all: rewrite ?app_nil_r.
  all: try tauto.
  all: try (intros Hx; apply existsb_snoc; tauto).
  all: try (intros r0 Hr0; injection Hr0 as <-; reflexivity).
  all: try (intros _; rewrite existsb_app; simpl; apply orb_true_r).
  all: try (intros Hx; erewrite existsb_without; [tauto | eassumption | reflexivity]).
  - intros r0 Hr0. destruct r as [r1 |]; [| discriminate].
    injection Hr0 as <-. specialize (Hl r1 eq_refl).
    destruct r1 as [[[k wr] |] rd]; [| discriminate]. exact Hl.
  - intros Hx Hy. destruct r as [r1 |]; [reflexivity | tauto].
Qed.

Lemma reachable_invariant (allowed : World -> Input -> bool) (w : World) :
  reachable_by allowed w -> invariant w.
Proof.
  induction 1 as [| w w' i effects _ IH _ Hstep].
  - exact invariant_start.
  - eapply invariant_step; eassumption.
Qed.

(** A run from a reachable state ends in a reachable state. *)
Lemma run_reachable (inputs : list Input) (w w' : World) (effects : list Effect) :
  reachable w -> run w inputs = Some (w', effects) -> reachable w'.
Proof.
  revert w effects.
  induction inputs as [| i inputs IH]; intros w effects Hw Hrun; simpl in Hrun.
  - injection Hrun as <- _. exact Hw.
  - destruct (step w i) as [[w1 e1] |] eqn:Hstep; [| discriminate].
    destruct (run w1 inputs) as [[w2 e2] |] eqn:Hrest; [| discriminate].
    injection Hrun as <- _.
    apply (IH w1 e2); [| exact Hrest].
    eapply reachable_step; [exact Hw | reflexivity | exact Hstep].
Qed.

Lemma world_after_reachable (inputs : list Input) :
  runs inputs = true -> reachable (world_after inputs).
Proof.
  unfold runs, world_after.
  destruct (run start inputs) as [[w effects] |] eqn:Hrun; [| discriminate].
  intros _. eapply run_reachable; [apply reachable_start | exact Hrun].
Qed.

(** ** Responses of a runner that is attached *)

Lemma runner_respond_attached (text : jsstring) (c : SeshatController) :
  runner c <> None ->
  exists effects,
    runner_respond text c = (tt, c, effects) /\ responses effects = [text].
Proof.
  unfold runner_respond. destruct (runner c) as [r |]; [| congruence].
  intros _. destruct (snd (SeshatRunner.respond r text)); eexists; split;
    reflexivity.
Qed.

Lemma labels_differ : Js.eqb noLabel yesLabel = false.
Proof. reflexivity. Qed.

(** The modal of a pending generic prompt, once closed, answers the runner
    that is attached then. *)
Lemma modal_answers (w : World) (n : nat) (default : option bool) :
  attached w = true ->
  nth_error (pending w) n = Some (AwaitWarningModal default) ->
  modal_reply w n (Some yesLabel) [str "y"]
  /\ modal_reply w n (Some noLabel) [str "n"]
  /\ modal_reply w n None
       [match default with Some true => str "y" | _ => str "n" end].
Proof.
  intros Hatt Hn. unfold modal_reply, attached in *.
  destruct (runner (ctl w)) as [r |] eqn:Hr; [| discriminate].
  assert (Hne : runner (ctl w) <> None) by congruence.
  repeat split.
  - destruct (runner_respond_attached (str "y") (ctl w) Hne) as [e [He Hresp]].
    unfold step. rewrite Hn. cbn. unfold invoke, resumeConfirmNeeded.
    rewrite JsFacts.eqb_refl, He. cbn [orb].
    eexists; eexists; split; [reflexivity | exact Hresp].
  - destruct (runner_respond_attached (str "n") (ctl w) Hne) as [e [He Hresp]].
    unfold step. rewrite Hn. cbn. unfold invoke, resumeConfirmNeeded.
    rewrite labels_differ, JsFacts.eqb_refl, He. cbn [orb].
    eexists; eexists; split; [reflexivity | exact Hresp].
  - destruct (runner_respond_attached
                (match default with Some true => str "y" | _ => str "n" end)
                (ctl w) Hne) as [e [He Hresp]].
    unfold step. rewrite Hn. unfold invoke, resumeConfirmNeeded.
    rewrite He.
    eexists; eexists; split; [reflexivity | exact Hresp].
Qed.

(** C1.  For every [confirm_needed] event that reaches the controller: when
    a message is ready and the prompt contains [commit] in any letter case,
    the controller sets the awaiting flag, shows the commit actions with the
    prompt, responds nothing and leaves nothing pending; otherwise it leaves
    its fields alone and shows a modal with the two labels, and once that
    modal is closed it responds [y] on the first label, [n] on the second,
    and on dismissal [y] if the declared default is true and [n] if it is
    false or absent. *)
Theorem C1_confirm_needed_routing :
  forall (w w' : World) (message : jsstring) (default : option bool)
         (effects : list Effect),
    reachable w ->
    step w (RunnerEvent (confirm_needed message default)) = Some (w', effects) ->
    (hasMessageReady (ctl w) = true
     /\ contains_ignoring_case (str "commit") message ->
     waitingForCommitConfirmation (ctl w') = true
     /\ effects = [ PanelPostSeshatEvent (confirm_needed message default);
                    PanelShowCommitActions true (Some message) ]
     /\ responses effects = []
     /\ pending w' = pending w)
    /\
    (~ (hasMessageReady (ctl w) = true
        /\ contains_ignoring_case (str "commit") message) ->
     ctl w' = ctl w
     /\ effects = [ PanelPostSeshatEvent (confirm_needed message default);
                    ShowWarningModal message [yesLabel; noLabel] ]
     /\ responses effects = []
     /\ pending w' = pending w ++ [AwaitWarningModal default]
     /\ forall (w2 : World) (n : nat),
          attached w2 = true ->
          nth_error (pending w2) n = Some (AwaitWarningModal default) ->
          modal_reply w2 n (Some yesLabel) [str "y"]
          /\ modal_reply w2 n (Some noLabel) [str "n"]
          /\ modal_reply w2 n None
               [match default with Some true => str "y" | _ => str "n" end]).
Proof.
  intros w w' message default effects Hreach Hstep.
  rewrite <- !JsFacts.test_i_spec.
  destruct (reachable_invariant Hreach) as [Hp _ _ _].
  destruct w as [[p r wp sm em ready waiting replacing saw] pend].
  unfold attached in Hp. cbn in Hp |- *.
  run_step Hstep; cbn.
  all: try (specialize (Hp eq_refl); discriminate Hp).
  all: rewrite ?app_nil_r.
  all: match goal with
       | H : _ && _ = true |- _ => apply andb_prop in H; destruct H
       | H : _ && _ = false |- _ => apply andb_false_iff in H
       end.
  all: split; [intros [Hready Htest] | intros Hnot].
  all: try (exfalso; apply Hnot; split; assumption).
  all: try (exfalso; intuition congruence).
  all: repeat split; try reflexivity.
  all: intros; eapply modal_answers; eassumption.
Qed.

(** After [message_ready], the prompt [Confirm commit?] raises the awaiting
    flag; with no message ready, the prompt [Overwrite file?] opens a modal
    whose dismissal answers [n]. *)
Lemma C1_confirm_needed_routing_witness :
  waitingForCommitConfirmation (ctl (world_after session_awaiting)) = true
  /\ modal_reply
       (world_after
          (session_started
             ++ [RunnerEvent (confirm_needed (str "Overwrite file?") None)]))
       0 None [str "n"].
Proof.
  split.
  - refine (proj1 (proj1 (@C1_confirm_needed_routing
                            (world_after session_ready) _
                            (str "Confirm commit?") None _ _ _) _)).
    + apply world_after_reachable. vm_compute. reflexivity.
    + reflexivity.
    + split; [reflexivity |]. apply JsFacts.test_i_spec. reflexivity.
  - refine (proj2 (proj2
             (proj2 (proj2 (proj2 (proj2
                (proj2 (@C1_confirm_needed_routing
                          (world_after session_started) _
                          (str "Overwrite file?") None _ _ _) _))))
                _ 0 _ _))).
    + apply world_after_reachable. vm_compute. reflexivity.
    + reflexivity.
    + intros [H _]. discriminate H.
    + reflexivity.
    + reflexivity.
Defined.

(** ** The operator's confirmation *)

(** In a reachable state where the panel exists and a commit prompt is
    awaited, the runner is attached and its child was not killed. *)
Lemma awaiting_has_live_runner (w : World) :
  reachable w ->
  panel (ctl w) = true ->
  waitingForCommitConfirmation (ctl w) = true ->
  exists rd writable,
    runner (ctl w) =
      Some (SeshatRunner.mkRunner
              (Some (SeshatRunner.mkChild false writable)) rd).
Proof.
  intros Hreach Hpanel Hwait.
  destruct (reachable_invariant Hreach) as [_ Hl Hw _].
  specialize (Hw Hwait Hpanel). unfold attached in Hw.
  destruct (runner (ctl w)) as [r |]; [| discriminate].
  specialize (Hl r eq_refl).
  destruct r as [[[k wr] |] rd]; [| discriminate].
  destruct k; [discriminate |]. now exists rd, wr.
Qed.

(** A panel message is a step only where the panel exists. *)
Lemma panel_message_needs_panel (w w' : World)
    (m : PanelMessageFromWebview) (effects : list Effect) :
  step w (PanelMessage m) = Some (w', effects) -> panel (ctl w) = true.
Proof. unfold step. destruct (panel (ctl w)); [reflexivity | discriminate]. Qed.

(** C3.  For every confirm action that arrives while a commit prompt is
    awaited: if the trimmed edited message equals the trimmed suggested one,
    or is empty, the controller calls [respond] exactly once, with [y],
    spawns no manual commit and leaves nothing pending; the runner it calls
    has its child, not killed, and writes the line [y] once unless the
    child's input is no longer writable. *)
Theorem C3_unchanged_message_answers_yes :
  forall (w w' : World) (effects : list Effect),
    reachable w ->
    waitingForCommitConfirmation (ctl w) = true ->
    (trim (editedMessage (ctl w)) = trim (suggestedMessage (ctl w))
     \/ trim (editedMessage (ctl w)) = []) ->
    step w (PanelMessage confirm) = Some (w', effects) ->
    responses effects = [str "y"]
    /\ git_spawns effects = []
    /\ pending w' = pending w
    /\ replacingWithManualGitCommit (ctl w') =
         replacingWithManualGitCommit (ctl w)
    /\ exists rd writable,
         runner (ctl w) =
           Some (SeshatRunner.mkRunner
                   (Some (SeshatRunner.mkChild false writable)) rd)
         /\ stdin_writes effects =
              if writable then [str "y" ++ [10%N]] else [].
Proof.
  intros w w' effects Hreach Hwait Hcond Hstep.
  pose proof (panel_message_needs_panel _ _ Hstep) as Hpanel.
  destruct (awaiting_has_live_runner Hreach Hpanel Hwait) as [rd [wr Hrun]].
  assert (Hc : negb (truthy (trim (editedMessage (ctl w))))
               || Js.eqb (trim (editedMessage (ctl w)))
                    (trim (suggestedMessage (ctl w))) = true).
  { destruct Hcond as [-> | ->];
      [rewrite JsFacts.eqb_refl; apply orb_true_r | reflexivity]. }
  destruct w as [[p r wp sm em ready waiting replacing saw] pend].
  cbn in Hwait, Hpanel, Hrun, Hc |- *. subst p waiting r.
  unfold_methods Hstep. cbn in Hstep. rewrite Hc in Hstep.
  destruct wr; cbn in Hstep; injection Hstep as <- <-; cbn;
    rewrite ?app_nil_r; repeat split; eauto.
Qed.

(** In the sample session the operator confirms the suggestion as it is:
    one response, [y]. *)
Lemma C3_unchanged_message_answers_yes_witness :
  responses (next_effects (world_after session_awaiting) (PanelMessage confirm))
  = [str "y"].
Proof.
  refine (proj1 (@C3_unchanged_message_answers_yes
                   (world_after session_awaiting)
                   (next_world (world_after session_awaiting)
                      (PanelMessage confirm))
                   (next_effects (world_after session_awaiting)
                      (PanelMessage confirm)) _ _ _ _)).
  - apply world_after_reachable. vm_compute. reflexivity.
  - vm_compute. reflexivity.
  - left. vm_compute. reflexivity.
  - vm_compute. reflexivity.
Defined.

(** ** The manual commit *)

Lemma manual_commit_success (w : World) (n : nat) (cwd edited : jsstring)
    (stdout stderr : jsstring) :
  nth_error (pending w) n = Some (AwaitGitCommit cwd edited) ->
  panel (ctl w) = true ->
  exists w' effects,
    settles w n (GitClosed (Some 0%Z) stdout stderr) w' effects
    /\ statuses effects =
         [(status_success, str "Commit realizado com mensagem editada")]
    /\ sawTerminalEvent (ctl w') = true
    /\ replacingWithManualGitCommit (ctl w') = false
    /\ In (ShowInformationMessage
             (str "Seshat: commit realizado com a mensagem editada."))
          effects
    /\ In (SetTimeout 1800) effects
    /\ In PanelResetTimer (pending w')
    /\ responses effects = []
    /\ stdin_writes effects = [].
Proof.
  intros Hn Hpanel. unfold settles, step. rewrite Hn.
  destruct w as [[p r wp sm em ready waiting replacing saw] pend].
  cbn in Hpanel. subst p.
  unfold invoke, resumeCommitConfirmation, runGitCommit, schedulePanelReset,
    on_panel, bind, ret, get, assign, emit, these. cbn.
  destruct (truthy (filter_join [stdout; stderr])); cbn;
    (eexists; eexists; split; [reflexivity |]); cbn;
    repeat split; auto using in_or_app, in_eq;
    try (apply in_or_app; right; apply in_eq); tauto.
Qed.

Lemma manual_commit_failure (w : World) (n : nat) (cwd edited : jsstring)
    (settle : GitSettle) (failure : GitCommitFailure) :
  nth_error (pending w) n = Some (AwaitGitCommit cwd edited) ->
  panel (ctl w) = true ->
  runGitCommit settle = inr failure ->
  exists w' effects,
    settles w n settle w' effects
    /\ statuses effects = [(status_error, str "Falha ao executar git commit")]
    /\ replacingWithManualGitCommit (ctl w') = false
    /\ sawTerminalEvent (ctl w') = sawTerminalEvent (ctl w)
    /\ (combined_output failure <> [] ->
        In (PanelPostSystemOutput (str "git commit (erro)")
              (combined_output failure)) effects)
    /\ responses effects = []
    /\ stdin_writes effects = [].
Proof.
  intros Hn Hpanel Hfail. unfold settles, step. rewrite Hn.
  destruct w as [[p r wp sm em ready waiting replacing saw] pend].
  cbn in Hpanel. subst p.
  unfold invoke, resumeCommitConfirmation. rewrite Hfail.
  unfold on_panel, bind, ret, get, assign, emit, these. cbn.
  fold (combined_output failure).
  destruct (truthy (combined_output failure)) eqn:Hc; cbn;
    (eexists; eexists; split; [reflexivity |]); cbn;
    repeat split; auto.
  intros Hne. apply JsFacts.truthy_true in Hne. congruence.
Qed.



(** C4.  However the manual commit ends, the fallback flag is down when its
    handling is over: a pending manual commit can always settle, and whether
    the child exits with code 0, exits otherwise, reports an error or [spawn]
    threw, the step that settles it ends with the flag down; a fallback that
    is abandoned because the workspace root is unknown spawns nothing and
    ends with the flag down in the same step; and in every reachable state
    the flag is up only while some manual commit is still awaited. *)
Theorem C4_fallback_flag_cleared :
  (forall (w : World) (n : nat) (cwd edited : jsstring) (settle : GitSettle),
      nth_error (pending w) n = Some (AwaitGitCommit cwd edited) ->
      exists w' effects,
        settles w n settle w' effects
        /\ replacingWithManualGitCommit (ctl w') = false)
  /\
  (forall (w w' : World) (effects : list Effect),
      waitingForCommitConfirmation (ctl w) = true ->
      trim (editedMessage (ctl w)) <> [] ->
      trim (editedMessage (ctl w)) <> trim (suggestedMessage (ctl w)) ->
      (workspacePath (ctl w) = None \/ workspacePath (ctl w) = Some []) ->
      step w (PanelMessage confirm) = Some (w', effects) ->
      replacingWithManualGitCommit (ctl w') = false
      /\ git_spawns effects = []
      /\ pending w' = pending w)
  /\
  (forall w : World,
      reachable w ->
      replacingWithManualGitCommit (ctl w) = true ->
      exists cwd edited, In (AwaitGitCommit cwd edited) (pending w)).
Proof.
  split; [| split].
  - intros w n cwd edited settle Hn. unfold settles, step. rewrite Hn.
    unfold invoke, resumeCommitConfirmation, schedulePanelReset, on_panel,
      bind, ret, get, assign, emit.
    destruct (runGitCommit settle) as [[stdout stderr] | failure];
      match goal with
      | |- context [truthy ?output] => destruct (truthy output)
      end;
      cbn; eexists; eexists; split; reflexivity.
  - intros w w' effects Hwait Hne Hdiff Hroot Hstep.
    assert (Hc : negb (truthy (trim (editedMessage (ctl w))))
                 || Js.eqb (trim (editedMessage (ctl w)))
                      (trim (suggestedMessage (ctl w))) = false).
    { apply JsFacts.truthy_true in Hne. apply JsFacts.eqb_neq in Hdiff.
      now rewrite Hne, Hdiff. }
    destruct w as [[p r wp sm em ready waiting replacing saw] pend].
    cbn in Hwait, Hc, Hroot, Hne, Hdiff |- *. subst waiting.
    unfold_methods Hstep. cbn in Hstep.
    destruct p; [| discriminate]. cbn in Hstep. rewrite Hc in Hstep.
    destruct Hroot as [-> | ->];
      destruct r as [[[[[|] [|]] |] rd] |];
      cbn in Hstep; injection Hstep as <- <-; cbn;
      rewrite ?app_nil_r; repeat split; reflexivity.
  - intros w Hreach Hflag.
    destruct (reachable_invariant Hreach) as [_ _ _ Hr].
    specialize (Hr Hflag). apply existsb_exists in Hr.
    destruct Hr as [[d | cs d | cwd edited |] [Hin Hgit]]; try discriminate.
    now exists cwd, edited.
Qed.

(** The manual commit of the sample session, when [spawn] throws. *)
Lemma C4_fallback_flag_cleared_witness :
  exists w' effects,
    settles (world_after session_fallback) 0 (GitSpawnThrew (str "EINVAL"))
      w' effects
    /\ replacingWithManualGitCommit (ctl w') = false.
Proof.
  refine (proj1 C4_fallback_flag_cleared (world_after session_fallback) 0
            (str "/w") (str "feat: y") (GitSpawnThrew (str "EINVAL")) _).
  vm_compute. reflexivity.
Defined.

(** ** The close of the tool's process *)

(** C5.  When the process of the tool closes: if no terminal event was seen
    and no manual commit is in progress, the status is set once, to success
    when the exit code is 0 and to error for every other code and for no
    code; if a terminal event was seen or a manual commit is in progress, no
    status is set; and in every case the commit actions are hidden, the
    awaiting flag is cleared, the runner is released, and the two flags that
    the close reads are left as they were. *)
Theorem C5_runner_close :
  forall (w w' : World) (code : option Z) (effects : list Effect),
    reachable w ->
    step w (RunnerClose code) = Some (w', effects) ->
    (sawTerminalEvent (ctl w) = false ->
     replacingWithManualGitCommit (ctl w) = false ->
     (code = Some 0%Z ->
      statuses effects = [(status_success, text_Concluido)])
     /\ (code <> Some 0%Z ->
         statuses effects =
           [(status_error, str "Processo finalizado com erro")]))
    /\ (sawTerminalEvent (ctl w) = true
        \/ replacingWithManualGitCommit (ctl w) = true ->
        statuses effects = [])
    /\ In (PanelShowCommitActions false None) effects
    /\ waitingForCommitConfirmation (ctl w') = false
    /\ runner (ctl w') = None
    /\ replacingWithManualGitCommit (ctl w') =
         replacingWithManualGitCommit (ctl w)
    /\ sawTerminalEvent (ctl w') = sawTerminalEvent (ctl w)
    /\ pending w' = pending w.
Proof.
  intros w w' code effects Hreach Hstep.
  destruct (reachable_invariant Hreach) as [Hp _ _ _].
  assert (Hatt : attached w = true).
  { unfold step in Hstep. destruct (attached w); [reflexivity | discriminate]. }
  specialize (Hp Hatt).
  destruct w as [[p r wp sm em ready waiting replacing saw] pend].
  cbn in Hp |- *. subst p.
  destruct saw, replacing; run_step Hstep; cbn.
  all: rewrite ?app_nil_r.
  all: repeat split; try reflexivity; try tauto; try congruence.
  all: try (intros; discriminate).
  all: try (intros [H | H]; discriminate H).
  all: try (intros; exfalso; congruence).
Qed.

(** In the sample session the tool exits with code 1 before any terminal
    event: the status becomes error. *)
Lemma C5_runner_close_witness :
  statuses (next_effects (world_after session_awaiting) (RunnerClose (Some 1%Z)))
  = [(status_error, str "Processo finalizado com erro")].
Proof.
  refine (proj2 (proj1 (@C5_runner_close
                          (world_after session_awaiting)
                          (next_world (world_after session_awaiting)
                             (RunnerClose (Some 1%Z)))
                          (Some 1%Z)
                          (next_effects (world_after session_awaiting)
                             (RunnerClose (Some 1%Z))) _ _) _ _) _).
  - apply world_after_reachable. vm_compute. reflexivity.
  - vm_compute. reflexivity.
  - vm_compute. reflexivity.
  - vm_compute. reflexivity.
  - discriminate.
Defined.

(** ** Choice prompts *)

Lemma member_In (x : jsstring) (l : list jsstring) :
  In x l -> member x l = true.
Proof.
  intros Hin. unfold member. apply existsb_exists.
  exists x. split; [exact Hin | apply JsFacts.eqb_refl].
Qed.

(** The quick pick of a pending choice prompt, once closed, answers the
    runner that is attached then. *)
Lemma pick_answers (w : World) (n : nat) (picks : list jsstring)
    (default : option jsstring) :
  attached w = true ->
  nth_error (pending w) n = Some (AwaitQuickPick picks default) ->
  (forall label, In label picks -> pick_reply w n (Some label) [label])
  /\ (forall d, default = Some d -> d <> [] -> pick_reply w n None [d])
  /\ (default = None \/ default = Some [] ->
      pick_reply w n None [hd [] picks]).
Proof.
  intros Hatt Hn. unfold pick_reply, attached in *.
  destruct (runner (ctl w)) as [r |] eqn:Hr; [| discriminate].
  assert (Hne : runner (ctl w) <> None) by congruence.
  repeat split.
  - intros label Hin.
    destruct (runner_respond_attached label (ctl w) Hne) as [e [He Hresp]].
    unfold step. rewrite Hn, (member_In _ _ Hin).
    unfold invoke, resumeChoiceNeeded. rewrite He.
    eexists; eexists; split; [reflexivity | exact Hresp].
  - intros d -> Hd.
    destruct (runner_respond_attached d (ctl w) Hne) as [e [He Hresp]].
    unfold step. rewrite Hn. unfold invoke, resumeChoiceNeeded.
    apply JsFacts.truthy_true in Hd. rewrite Hd, He.
    eexists; eexists; split; [reflexivity | exact Hresp].
  - intros Hd.
    destruct (runner_respond_attached (hd [] picks) (ctl w) Hne)
      as [e [He Hresp]].
    unfold step. rewrite Hn. unfold invoke, resumeChoiceNeeded.
    destruct Hd as [-> | ->];
      [| change (truthy (@nil N)) with false; cbv iota];
      rewrite He;
      (eexists; eexists; split; [reflexivity | exact Hresp]).
Qed.

(** C8, as the code has it.  For every [choice_needed] event that reaches
    the controller: with no choices, absent or empty, the controller changes
    nothing, leaves nothing pending and responds nothing; otherwise it shows
    a single-select list of exactly the choices, and once that list is
    closed it responds with the label picked, or on dismissal with the
    declared default when there is one and it is not the empty string, and
    with the first choice when the default is absent or empty. *)
Theorem C8_choice_needed_routing :
  forall (w w' : World) (message : jsstring) (choices : option (list jsstring))
         (default : option jsstring) (effects : list Effect),
    reachable w ->
    step w (RunnerEvent (choice_needed message choices default))
      = Some (w', effects) ->
    (choices = None \/ choices = Some [] ->
     ctl w' = ctl w
     /\ pending w' = pending w
     /\ effects = [PanelPostSeshatEvent (choice_needed message choices default)]
     /\ responses effects = [])
    /\
    (forall first rest,
        choices = Some (first :: rest) ->
        ctl w' = ctl w
        /\ effects = [ PanelPostSeshatEvent (choice_needed message choices default);
                       ShowQuickPick (first :: rest) message ]
        /\ responses effects = []
        /\ pending w' = pending w ++ [AwaitQuickPick (first :: rest) default]
        /\ forall (w2 : World) (n : nat),
             attached w2 = true ->
             nth_error (pending w2) n
               = Some (AwaitQuickPick (first :: rest) default) ->
             (forall label, In label (first :: rest) ->
                            pick_reply w2 n (Some label) [label])
             /\ (forall d, default = Some d -> d <> [] ->
                           pick_reply w2 n None [d])
             /\ (default = None \/ default = Some [] ->
                 pick_reply w2 n None [first])).
Proof.
  intros w w' message choices default effects Hreach Hstep.
  destruct (reachable_invariant Hreach) as [Hp _ _ _].
  assert (Hatt : attached w = true).
  { unfold step in Hstep. destruct (attached w); [reflexivity | discriminate]. }
  specialize (Hp Hatt).
  destruct w as [[p r wp sm em ready waiting replacing saw] pend].
  cbn in Hp |- *. subst p.
  run_step Hstep; cbn; rewrite ?app_nil_r.
  all: split; [intros [Hc | Hc]; try discriminate Hc; repeat split |].
  all: intros first rest Hc; try discriminate Hc.
  all: injection Hc as -> ->.
  all: repeat split; try reflexivity.
  all: intros; eapply (@pick_answers w2 n (first :: rest)); eassumption.
Qed.

(** In the sample session the tool offers [a] and [b] with default [b]:
    picking [a] answers [a], dismissing answers [b]. *)
Lemma C8_choice_needed_routing_witness :
  pick_reply
    (world_after
       (session_started
          ++ [RunnerEvent (choice_needed (str "Pick one")
                             (Some [str "a"; str "b"]) (Some (str "b")))]))
    0 None [str "b"].
Proof.
  refine (proj1 (proj2
            (proj2 (proj2 (proj2 (proj2
               (proj2 (@C8_choice_needed_routing
                         (world_after session_started)
                         (world_after
                            (session_started
                               ++ [RunnerEvent
                                     (choice_needed (str "Pick one")
                                        (Some [str "a"; str "b"])
                                        (Some (str "b")))]))
                         (str "Pick one") (Some [str "a"; str "b"])
                         (Some (str "b"))
                         (next_effects (world_after session_started)
                            (RunnerEvent
                               (choice_needed (str "Pick one")
                                  (Some [str "a"; str "b"])
                                  (Some (str "b")))))
                         _ _)
                  (str "a") [str "b"] eq_refl))))
               _ 0 _ _)) (str "b") eq_refl _).
  - apply world_after_reachable. vm_compute. reflexivity.
  - vm_compute. reflexivity.
  - vm_compute. reflexivity.
  - vm_compute. reflexivity.
  - vm_compute. discriminate.
Defined.

(** The tool declares the empty string as default; the list is dismissed;
    the controller responds [a], the first choice, and not the declared
    default. *)
Lemma C8_empty_default_counterexample :
  pick_reply
    (world_after (session_started ++ [RunnerEvent choice_with_empty_default]))
    0 None [str "a"]
  /\ ~ pick_reply
        (world_after (session_started ++ [RunnerEvent choice_with_empty_default]))
        0 None [ [] ].
Proof.
  split.
  - unfold pick_reply. eexists; eexists. split; vm_compute; reflexivity.
  - intros (w' & effects & Hstep & Hresp).
    vm_compute in Hstep. injection Hstep as <- <-.
    vm_compute in Hresp. discriminate Hresp.
Qed.

(** ** The two flags *)

(** A step keeps the two flags apart, unless it is a commit prompt that
    arrives during a manual commit. *)
Lemma exclusive_step (w w' : World) (i : Input) (effects : list Effect) :
  exclusive w ->
  no_commit_prompt_during_fallback w i = true ->
  step w i = Some (w', effects) ->
  exclusive w'.
Proof.
  unfold exclusive, no_commit_prompt_during_fallback, isCommitConfirmation.
  intros Hex Hallowed Hstep.
  destruct w as [[p r wp sm em ready waiting replacing saw] pend].
  cbn in Hex, Hallowed |- *.
  destruct i; run_step Hstep; cbn; try reflexivity; try assumption.
  all: try (destruct waiting; [exact Hex | reflexivity]).
  all: try apply andb_false_r.
  all: destruct replacing; cbn in *; congruence.
Qed.

(** The awaiting flag is raised by one step only: a [confirm_needed] event
    classified as the commit prompt. *)
Lemma awaiting_raised_by (w w' : World) (i : Input) (effects : list Effect) :
  step w i = Some (w', effects) ->
  waitingForCommitConfirmation (ctl w) = false ->
  waitingForCommitConfirmation (ctl w') = true ->
  exists message default,
    i = RunnerEvent (confirm_needed message default)
    /\ isCommitConfirmation (ctl w) message = true.
Proof.
  unfold isCommitConfirmation. intros Hstep Hbefore Hafter.
  destruct w as [[p r wp sm em ready waiting replacing saw] pend].
  cbn in Hbefore |- *. subst waiting.
  destruct i; run_step Hstep; cbn in Hafter; try discriminate Hafter.
  all: eexists; eexists; split; [reflexivity | assumption].
Qed.

(** The fallback flag is raised by one step only: a confirm action, taken
    while the commit prompt is awaited, that leaves a manual commit
    pending. *)
Lemma fallback_raised_by (w w' : World) (i : Input) (effects : list Effect) :
  step w i = Some (w', effects) ->
  replacingWithManualGitCommit (ctl w) = false ->
  replacingWithManualGitCommit (ctl w') = true ->
  i = PanelMessage confirm
  /\ waitingForCommitConfirmation (ctl w) = true
  /\ waitingForCommitConfirmation (ctl w') = false
  /\ exists cwd edited, pending w' = pending w ++ [AwaitGitCommit cwd edited].
Proof.
  intros Hstep Hbefore Hafter.
  destruct w as [[p r wp sm em ready waiting replacing saw] pend].
  cbn in Hbefore |- *. subst replacing.
  destruct waiting, i; run_step Hstep; cbn in Hafter; try discriminate Hafter.
  all: cbn; repeat split; eexists; eexists; reflexivity.
Qed.


Lemma run_allowed_reachable (allowed : World -> Input -> bool)
    (inputs : list Input) (w : World) :
  reachable_by allowed w ->
  run_allowed allowed w inputs = true ->
  exists w' effects,
    run w inputs = Some (w', effects) /\ reachable_by allowed w'.
Proof.
  revert w. induction inputs as [| i inputs IH]; intros w Hw Hrun; simpl in *.
  - now exists w, [].
  - apply andb_prop in Hrun. destruct Hrun as [Hallowed Hrest].
    destruct (step w i) as [[w1 e1] |] eqn:Hstep; [| discriminate].
    destruct (IH w1) as (w2 & e2 & Hrun2 & Hreach2); [| exact Hrest |].
    + eapply reachable_step; eassumption.
    + rewrite Hrun2. now exists w2, (e1 ++ e2).
Qed.

Lemma world_after_reachable_by (allowed : World -> Input -> bool)
    (inputs : list Input) :
  run_allowed allowed start inputs = true ->
  reachable_by allowed (world_after inputs).
Proof.
  intros Hrun.
  destruct (@run_allowed_reachable allowed inputs start
              (reachable_start allowed) Hrun)
    as (w' & effects & Hrun' & Hreach).
  unfold world_after. now rewrite Hrun'.
Qed.



(** ** Operator actions outside the confirmation *)

(** C10.  A confirm or cancel action that arrives while no commit prompt is
    awaited changes nothing: the step ends in the same state, pending tasks
    included, with no effect at all, so nothing is written to the runner.
    A message-edited action, in every state, stores its text as the edited
    message, changes no other field and has no effect. *)
Theorem C10_actions_outside_confirmation :
  (forall (w : World) (m : PanelMessageFromWebview),
      panel (ctl w) = true ->
      waitingForCommitConfirmation (ctl w) = false ->
      m = confirm \/ m = cancel ->
      step w (PanelMessage m) = Some (w, []))
  /\
  (forall (w : World) (text : jsstring),
      panel (ctl w) = true ->
      step w (PanelMessage (messageEdited text))
      = Some ({| ctl := set_editedMessage text (ctl w); pending := pending w |},
              [])
      /\ editedMessage (set_editedMessage text (ctl w)) = text).
Proof.
  split.
  - intros [[p r wp sm em ready waiting replacing saw] pend] m Hp Hw Hm.
    cbn in Hp, Hw. subst p waiting.
    destruct Hm as [-> | ->]; unfold step; cbn; now rewrite app_nil_r.
  - intros [[p r wp sm em ready waiting replacing saw] pend] text Hp.
    cbn in Hp. subst p. unfold step. cbn. now rewrite app_nil_r.
Qed.

(** In the sample session, before any prompt, a confirm action is ignored
    and an edit is recorded. *)
Lemma C10_actions_outside_confirmation_witness :
  step (world_after session_ready) (PanelMessage confirm)
  = Some (world_after session_ready, [])
  /\ step (world_after session_ready) (PanelMessage (messageEdited (str "feat: y")))
     = Some ({| ctl := set_editedMessage (str "feat: y")
                         (ctl (world_after session_ready));
                pending := pending (world_after session_ready) |}, []).
Proof.
  split.
  - refine (proj1 C10_actions_outside_confirmation
              (world_after session_ready) confirm _ _ _).
    + vm_compute. reflexivity.
    + vm_compute. reflexivity.
    + left. reflexivity.
  - refine (proj1 (proj2 C10_actions_outside_confirmation
                     (world_after session_ready) (str "feat: y") _)).
    vm_compute. reflexivity.
Defined.

End ControllerProofs.

(* ------------------------------------------------------------------------- *)
(** * More on the transport: framing of responses and of lines *)

Module RunnerMore.

Import SeshatRunner.

(** ** What [trim] leaves *)

Lemma trimStart_head (s : jsstring) (c : N) (rest : jsstring) :
  trimStart s = c :: rest -> is_white_space c = false.
Proof.
  induction s as [| a s IH]; simpl; [discriminate |].
  destruct (is_white_space a) eqn:Ha; [exact IH |].
  intros H. injection H as <- _. exact Ha.
Qed.

Lemma trimStart_fixed (s : jsstring) :
  (forall c rest, s = c :: rest -> is_white_space c = false) ->
  trimStart s = s.
Proof.
  destruct s as [| c s]; [reflexivity |]. intros H. simpl.
  now rewrite (H c s eq_refl).
Qed.

Lemma trimStart_blank_app (blank s : jsstring) :
  forallb is_white_space blank = true -> trimStart (blank ++ s) = trimStart s.
Proof.
  induction blank as [| c blank IH]; simpl; [reflexivity |].
  intros H. apply andb_prop in H. destruct H as [Hc Hb].
  rewrite Hc. now apply IH.
Qed.

Lemma trimStart_app_blank (s blank : jsstring) :
  forallb is_white_space blank = true ->
  trimStart (s ++ blank) = if forallb is_white_space s then [] else trimStart s ++ blank.
Proof.
  intros Hb. induction s as [| c s IH]; simpl.
  - apply JsFacts.trimStart_nil. exact Hb.
  - destruct (is_white_space c); simpl; [exact IH | reflexivity].
Qed.

(** The first code unit of a trimmed string is not white space. *)
Lemma trim_head (s : jsstring) (c : N) (rest : jsstring) :
  trim s = c :: rest -> is_white_space c = false.
Proof.
  unfold trim, trimEnd. intros H.
  destruct (JsFacts.trimStart_suffix (rev (trimStart s))) as [blank [Heq Hb]].
  apply (f_equal (@rev N)) in Heq. rewrite rev_involutive, rev_app_distr in Heq.
  rewrite H in Heq. simpl in Heq.
  exact (@trimStart_head s c (rest ++ rev blank) Heq).
Qed.

(** The last code unit of a trimmed string is not white space. *)
Lemma trim_last (s : jsstring) (front : jsstring) (c : N) :
  trim s = front ++ [c] -> is_white_space c = false.
Proof.
  unfold trim, trimEnd. intros H.
  apply (f_equal (@rev N)) in H. rewrite rev_involutive, rev_app_distr in H.
  simpl in H. exact (@trimStart_head _ _ _ H).
Qed.

(** Trimming twice is trimming once. *)
Lemma trim_idempotent (s : jsstring) : trim (trim s) = trim s.
Proof.
  assert (Hhead := @trim_head s). assert (Hlast := @trim_last s).
  set (x := trim s) in *. unfold trim, trimEnd.
  rewrite (@trimStart_fixed x Hhead).
  rewrite trimStart_fixed; [apply rev_involutive |].
  intros c rest Hrev. apply (Hlast (rev rest)).
  apply (f_equal (@rev N)) in Hrev. rewrite rev_involutive in Hrev.
  exact Hrev.
Qed.

(** White space around a string does not change what [trim] leaves. *)
Lemma trim_padded (before s after : jsstring) :
  forallb is_white_space before = true ->
  forallb is_white_space after = true ->
  trim (before ++ s ++ after) = trim s.
Proof.
  intros Hb Ha. unfold trim, trimEnd.
  rewrite trimStart_blank_app by exact Hb.
  rewrite trimStart_app_blank by exact Ha.
  destruct (forallb is_white_space s) eqn:Hs.
  - apply JsFacts.trimStart_nil in Hs. now rewrite Hs.
  - rewrite rev_app_distr, trimStart_blank_app; [reflexivity |].
    now rewrite JsFacts.forallb_rev.
Qed.

Lemma endsWith_newline_snoc (s : jsstring) :
  endsWith_newline (s ++ [10%N]) = true.
Proof.
  induction s as [| c s IH]; [reflexivity |].
  simpl. destruct (s ++ [10%N]) eqn:Hs; [now destruct s | exact IH].
Qed.

(** ** [respond] *)

(** X1.  [respond] writes exactly when the runner has a child that was not
    killed and whose input is writable, and it returns [true] exactly when it
    writes.  What it writes is the text as one line: it ends with a line
    feed, it is the text itself when the text already ends with a line feed
    and the text followed by one line feed otherwise; responding with a
    payload already written writes the same payload again. *)
Theorem respond_frames_one_line :
  forall (r : t) (text : jsstring),
    (fst (respond r text) = true <-> snd (respond r text) <> None)
    /\ (snd (respond r text) <> None <->
        exists rd, r = mkRunner (Some (mkChild false true)) rd)
    /\ (forall payload,
           snd (respond r text) = Some payload ->
           endsWith_newline payload = true
           /\ (endsWith_newline text = true -> payload = text)
           /\ (endsWith_newline text = false -> payload = text ++ [10%N])
           /\ respond r payload = (true, Some payload)).
Proof.
  intros r text.
  assert (Hdead : forall r', (forall rd, r' <> mkRunner (Some (mkChild false true)) rd) ->
                        respond r' text = (false, None)).
  { intros [[[[|] [|]] |] rd] Hr; try reflexivity.
    exfalso. now apply (Hr rd). }
  destruct r as [[[[|] [|]] |] rd].
  1, 2, 4, 5:
    rewrite Hdead by discriminate; simpl;
    (split; [split; [discriminate | congruence] |]);
    (split; [split; [congruence | intros [rd' H]; discriminate H] |]);
    discriminate.
  unfold respond. simpl. split; [split; [discriminate | reflexivity] |].
  split; [split; [intros _; now exists rd | discriminate] |].
  intros payload H. injection H as <-.
  destruct (endsWith_newline text) eqn:Ht.
  - rewrite Ht. repeat split; congruence.
  - rewrite endsWith_newline_snoc. repeat split; congruence.
Qed.

(** ** The life of the handle *)

(** X2.  After any calls: a [run] on a running runner is refused and leaves
    the runner as it is, whether [spawn] would succeed or not; once the
    [close] notification arrived the runner is not running, [respond]
    refuses and writes nothing, and the next [run] starts a fresh child whose
    input is writable; and when [spawn] throws on a runner that is not
    running, the runner is left as it is and still not running. *)
Theorem run_only_when_not_running :
  forall (calls : list Call),
    (isRunning (exec calls) = true ->
     forall ok, run (exec calls) ok = (exec calls, AlreadyRunning))
    /\ isRunning (exec (calls ++ [ChildClose])) = false
    /\ (forall text, respond (exec (calls ++ [ChildClose])) text = (false, None))
    /\ run (exec (calls ++ [ChildClose])) true
       = (mkRunner (Some (mkChild false true)) true, Started)
    /\ (isRunning (exec calls) = false ->
        run (exec calls) false = (exec calls, SpawnThrew)
        /\ isRunning (exec (calls ++ [Run false])) = false).
Proof.
  intros calls. rewrite !RunnerProofs.exec_snoc.
  split; [| split; [| split; [| split]]].
  - intros Hr ok. unfold run. now rewrite Hr.
  - reflexivity.
  - reflexivity.
  - reflexivity.
  - intros Hr. simpl. unfold run. rewrite Hr. simpl. now split.
Qed.

(** A runner that was started and is still running: a second [run] is
    refused and changes nothing. *)
Lemma run_only_when_not_running_witness :
  run (exec [Run true]) true = (exec [Run true], AlreadyRunning).
Proof.
  refine (proj1 (run_only_when_not_running [Run true]) _ true).
  reflexivity.
Defined.

(** ** Lines *)

(** X3.  Whatever [JSON.parse] answers, a value emitted for a line of
    standard output is an object with an [event] member: either the parsed
    line itself, or the [info] wrapper of the trimmed line; a line emits
    nothing exactly when it is blank; and white space before and after a line
    never changes what it emits. *)
Theorem stdout_events_carry_event :
  forall (JSON_parse : jsstring -> option Json.value) (line : jsstring),
    (on_stdout_line JSON_parse line = None <->
     forallb is_white_space line = true)
    /\ (forall v,
           on_stdout_line JSON_parse line = Some v ->
           (exists members,
               v = Json.JObject members /\ In (str "event") (List.map fst members))
           /\ (JSON_parse (trim line) = Some v
               \/ v = Json.JObject
                        [ (str "event", Json.JString (str "info"));
                          (str "message", Json.JString (trim line)) ]))
    /\ (forall before after,
           forallb is_white_space before = true ->
           forallb is_white_space after = true ->
           on_stdout_line JSON_parse (before ++ line ++ after)
           = on_stdout_line JSON_parse line).
Proof.
  intros JSON_parse line. split; [| split].
  - unfold on_stdout_line. rewrite <- JsFacts.trim_nil.
    destruct (trim line) as [| c rest] eqn:Ht; simpl.
    + tauto.
    + split; [| discriminate].
      destruct (JSON_parse (c :: rest)) as [v |];
        [destruct (Json.is_object v && Json.has_word_key (str "event") v) |];
        discriminate.
  - intros v. unfold on_stdout_line.
    destruct (truthy (trim line)); simpl; [| discriminate].
    destruct (JSON_parse (trim line)) as [parsed |] eqn:Hp.
    + destruct (Json.is_object parsed && Json.has_word_key (str "event") parsed)
        eqn:Hc; intros H; injection H as <-.
      * split; [now apply RunnerProofs.carries_event_spec | now left].
      * split; [| now right]. eexists. split; [reflexivity |]. simpl. now left.
    + intros H. injection H as <-.
      split; [| now right]. eexists. split; [reflexivity |]. simpl. now left.
  - intros before after Hb Ha. unfold on_stdout_line.
    now rewrite trim_padded.
Qed.

(** An indented line of text is emitted as the [info] wrapper of its
    text. *)
Lemma stdout_events_carry_event_witness :
  on_stdout_line Json.parse (str "   " ++ str "hello" ++ str "  ")
  = on_stdout_line Json.parse (str "hello").
Proof.
  refine (proj2 (proj2 (stdout_events_carry_event Json.parse (str "hello")))
            (str "   ") (str "  ") _ _); reflexivity.
Defined.

(** X4.  A line of standard error is forwarded exactly when it is not blank;
    what is forwarded is the trimmed line: it is not empty, it neither starts
    nor ends with white space, and forwarding it again would forward it
    unchanged. *)
Theorem stderr_lines_are_trimmed :
  forall (line : jsstring),
    (on_stderr_line line = None <-> forallb is_white_space line = true)
    /\ (forall out,
           on_stderr_line line = Some out ->
           out = trim line
           /\ out <> []
           /\ (forall c rest, out = c :: rest -> is_white_space c = false)
           /\ (forall front c, out = front ++ [c] -> is_white_space c = false)
           /\ on_stderr_line out = Some out).
Proof.
  intros line. unfold on_stderr_line. rewrite <- JsFacts.trim_nil.
  destruct (trim line) as [| c rest] eqn:Ht.
  - simpl. split; [tauto | discriminate].
  - change (truthy (c :: rest)) with true. cbv iota.
    split; [split; discriminate |].
    intros out H. injection H as <-. rewrite <- Ht.
    repeat split.
    + rewrite Ht. discriminate.
    + intros c' rest'. apply trim_head.
    + intros front c'. apply trim_last.
    + rewrite trim_idempotent, Ht. reflexivity.
Qed.

(** The line [  fatal: x ] is forwarded as [fatal: x]. *)
Lemma stderr_lines_are_trimmed_witness :
  on_stderr_line (str "fatal: x") = Some (str "fatal: x").
Proof.
  refine (proj2 (proj2 (proj2 (proj2
            (proj2 (stderr_lines_are_trimmed (str "  fatal: x "))
               (str "fatal: x") _))))).
  reflexivity.
Defined.

End RunnerMore.

(* ------------------------------------------------------------------------- *)
(** * More on the commit workflow *)

Module ControllerMore.

Import Controller ControllerProofs Session.

(** ** Invariants *)

Lemma forallb_without (f : Task -> bool) (n : nat) (tasks : list Task) :
  forallb f tasks = true -> forallb f (without n tasks) = true.
Proof.
  unfold without. revert tasks.
  induction n as [| n IH]; intros [| t tasks]; simpl; try reflexivity.
  - intros H. apply andb_prop in H. tauto.
  - intros H. apply andb_prop in H. destruct H as [Ht Hrest].
    rewrite Ht. simpl. now apply IH.
Qed.

Lemma session_invariant_start : session_invariant start.
Proof. constructor; simpl; intros; try discriminate; reflexivity. Qed.

Lemma session_invariant_step (w w' : World) (i : Input) (effects : list Effect) :
  session_invariant w -> step w i = Some (w', effects) -> session_invariant w'.
Proof.
  intros [Hroot Hready Hch] Hstep.
  destruct w as [[p r wp sm em ready waiting replacing saw] pend].
  unfold attached in *. cbn in Hroot, Hready, Hch.
  destruct i; run_step Hstep.
  all: constructor; unfold attached; cbn.
  all: rewrite ?app_nil_r.
  all: try (intros; discriminate).
  all: try assumption.
  all: try (intros _; discriminate).
  all: try (apply forallb_without; assumption).
  all: try (rewrite forallb_app; cbn; rewrite ?andb_true_r;
            first [assumption | apply forallb_without; assumption]).
  all: try tauto.
  all: intros _;
    match goal with H : _ && _ = true |- _ => apply andb_prop in H; tauto end.
Qed.

Lemma reachable_session_invariant (allowed : World -> Input -> bool) (w : World) :
  reachable_by allowed w -> session_invariant w.
Proof.
  induction 1 as [| w w' i effects _ IH _ Hstep].
  - exact session_invariant_start.
  - eapply session_invariant_step; eassumption.
Qed.

Lemma attached_is_live (w : World) :
  reachable w ->
  attached w = true ->
  panel (ctl w) = true
  /\ workspacePath (ctl w) <> None
  /\ exists rd writable,
       runner (ctl w)
       = Some (SeshatRunner.mkRunner
                 (Some (SeshatRunner.mkChild false writable)) rd).
Proof.
  intros Hreach Hatt.
  destruct (reachable_invariant Hreach) as [Hp Hl _ _].
  destruct (reachable_session_invariant Hreach) as [Hroot _ _].
  split; [now apply Hp |]. split; [now apply Hroot |].
  unfold attached in Hatt.
  destruct (runner (ctl w)) as [r |]; [| discriminate].
  specialize (Hl r eq_refl).
  destruct r as [[[k wr] |] rd]; [| discriminate].
  destruct k; [discriminate |]. now exists rd, wr.
Qed.

Lemma open_pick_offers_a_choice (w : World) :
  reachable w ->
  forall n choices default,
    nth_error (pending w) n = Some (AwaitQuickPick choices default) ->
    choices <> [].
Proof.
  intros Hreach n choices default Hn.
  destruct (reachable_session_invariant Hreach) as [_ _ Hch].
  rewrite forallb_forall in Hch.
  specialize (Hch _ (nth_error_In _ _ Hn)).
  destruct choices; [discriminate Hch | discriminate].
Qed.

(** X5.  In every reachable state: if a runner is attached then the panel
    exists, the runner has a child that was not killed, and the workspace
    root was recorded; a commit prompt is awaited only after a message became
    ready, and, with the panel there, only on an attached runner; and every
    quick pick that is still open offers at least one choice. *)
Theorem session_invariants :
  forall w : World,
    reachable w ->
    (attached w = true ->
     panel (ctl w) = true
     /\ workspacePath (ctl w) <> None
     /\ exists rd writable,
          runner (ctl w)
          = Some (SeshatRunner.mkRunner
                    (Some (SeshatRunner.mkChild false writable)) rd))
    /\ (waitingForCommitConfirmation (ctl w) = true ->
        hasMessageReady (ctl w) = true
        /\ (panel (ctl w) = true -> attached w = true))
    /\ (forall n choices default,
           nth_error (pending w) n = Some (AwaitQuickPick choices default) ->
           choices <> []).
Proof.
  intros w Hreach.
  destruct (reachable_invariant Hreach) as [_ _ Hw _].
  destruct (reachable_session_invariant Hreach) as [_ Hready _].
  split; [| split].
  - now apply attached_is_live.
  - intros Hwait. split; [now apply Hready | now apply Hw].
  - now apply open_pick_offers_a_choice.
Qed.

(** In the sample session that awaits the confirmation, a message is
    ready. *)
Lemma session_invariants_witness :
  hasMessageReady (ctl (world_after session_awaiting)) = true.
Proof.
  refine (proj1 (proj1 (proj2 (@session_invariants
                                 (world_after session_awaiting) _)) _)).
  - apply world_after_reachable. vm_compute. reflexivity.
  - vm_compute. reflexivity.
Defined.

(** ** Starting a workflow *)

(** X6.  A start that finds no workspace folder, or that finds a runner
    attached, changes nothing: the state after the step is the state before
    it, nothing runs, nothing is written to a runner, no status is set and
    the panel is not reset.  Without a folder the only effect is an error
    message; with a runner attached the panel is revealed and the operator is
    told that a commit is already running. *)
Theorem rejected_start_changes_nothing :
  forall (w : World) (folder : option jsstring) (configuredPath : jsstring)
         (autoOpenPanel : bool) (spawn_error : option jsstring),
    reachable w ->
    folder = None \/ attached w = true ->
    exists effects,
      step w (StartCommit folder configuredPath autoOpenPanel spawn_error)
      = Some (w, effects)
      /\ runner_runs effects = []
      /\ responses effects = []
      /\ statuses effects = []
      /\ ~ In PanelReset effects
      /\ (folder = None ->
          effects = [ShowErrorMessage
                       (str "Seshat: abra um workspace antes de executar o commit.")])
      /\ (folder <> None ->
          effects = [PanelReveal true; ShowInformationMessage text_already_running]).
Proof.
  intros w folder cfg auto err Hreach Hcase.
  destruct folder as [fsPath |].
  - destruct Hcase as [Hcase | Hatt]; [discriminate |].
    destruct (attached_is_live Hreach Hatt) as (Hp & _ & rd & wr & Hr).
    destruct w as [[p r wp sm em ready waiting replacing saw] pend].
    cbn in Hp, Hr. subst p r.
    eexists. unfold step, invoke, startCommit, on_panel, bind, ret, get, emit.
    cbn. rewrite app_nil_r. split; [reflexivity |].
    repeat split; try reflexivity; try congruence.
    intros [H | [H | []]]; discriminate H.
  - destruct w as [c pend].
    eexists. unfold step, invoke, startCommit, bind, ret, emit. cbn.
    rewrite app_nil_r. split; [reflexivity |].
    repeat split; try reflexivity; try congruence.
    intros [H | []]; discriminate H.
Qed.

(** A second start during the sample session changes nothing. *)
Lemma rejected_start_changes_nothing_witness :
  exists effects,
    step (world_after session_awaiting)
      (StartCommit (Some (str "/w")) (str "seshat") true None)
    = Some (world_after session_awaiting, effects)
    /\ runner_runs effects = [].
Proof.
  destruct (@rejected_start_changes_nothing
              (world_after session_awaiting) (Some (str "/w")) (str "seshat")
              true None) as (effects & Hstep & Hruns & _).
  - apply world_after_reachable. vm_compute. reflexivity.
  - right. vm_compute. reflexivity.
  - exists effects. split; assumption.
Defined.

(** X7.  A start with a workspace folder and no runner attached, when
    [spawn] returns a child, begins a fresh session whatever the state was:
    both messages empty, the four flags down, the folder recorded as the
    workspace root, the panel there and reset, status running, and a runner
    attached whose child is alive with a writable input.  The tool is run in
    the folder, with the configured path, or with [seshat] when the
    configured path is empty.  Methods already suspended stay suspended. *)
Theorem accepted_start_resets_session :
  forall (w : World) (fsPath configuredPath : jsstring) (autoOpenPanel : bool),
    attached w = false ->
    exists w' effects,
      step w (StartCommit (Some fsPath) configuredPath autoOpenPanel None)
      = Some (w', effects)
      /\ fresh_session (ctl w')
      /\ workspacePath (ctl w') = Some fsPath
      /\ panel (ctl w') = true
      /\ runner (ctl w') = Some started_runner
      /\ pending w' = pending w
      /\ runner_runs effects
         = [(fsPath, match configuredPath with [] => str "seshat" | _ => configuredPath end)]
      /\ statuses effects = [(status_running, str "Executando")]
      /\ In PanelReset effects
      /\ (In PanelCreate effects <-> panel (ctl w) = false).
Proof.
  intros [[p r wp sm em ready waiting replacing saw] pend] fsPath cfg auto Hatt.
  unfold attached in Hatt. cbn in Hatt.
  destruct r as [r |]; [discriminate |].
  unfold step, invoke, startCommit, getOrCreatePanel, cleanupRunner, on_panel,
    bind, ret, get, assign, emit, these, fresh_session, started_runner.
  destruct p, cfg as [| c cfg]; cbn; rewrite app_nil_r;
    (eexists; eexists; split; [reflexivity |]); cbn;
    repeat split; try reflexivity; try tauto; try discriminate;
    try (intros [H | [H | [H | [H | [H | []]]]]]; discriminate H);
    try (intros [H | [H | [H | [H | []]]]]; discriminate H).
Qed.

(** From the first state, a start in [/w] runs [seshat] there. *)
Lemma accepted_start_resets_session_witness :
  exists w' effects,
    step start (StartCommit (Some (str "/w")) [] true None) = Some (w', effects)
    /\ runner_runs effects = [(str "/w", str "seshat")].
Proof.
  destruct (@accepted_start_resets_session start (str "/w") [] true)
    as (w' & effects & Hstep & _ & _ & _ & _ & _ & Hruns & _).
  - reflexivity.
  - exists w', effects. split; assumption.
Defined.

(** X8.  A start whose [spawn] throws keeps no runner: the status goes to
    running and then to error, the operator is shown the message of the
    exception, nothing was run, and the session is fresh.  The next start is
    accepted at once and attaches a runner. *)
Theorem failed_start_can_be_retried :
  forall (w : World) (fsPath configuredPath : jsstring) (autoOpenPanel : bool)
         (message : jsstring),
    attached w = false ->
    exists w1 effects1,
      step w (StartCommit (Some fsPath) configuredPath autoOpenPanel (Some message))
      = Some (w1, effects1)
      /\ runner (ctl w1) = None
      /\ fresh_session (ctl w1)
      /\ panel (ctl w1) = true
      /\ statuses effects1
         = [(status_running, str "Executando");
            (status_error, str "Falha ao iniciar")]
      /\ notifications effects1
         = [ShowErrorMessage
              (str "Seshat: falha ao iniciar processo (" ++ message ++ str ").")]
      /\ runner_runs effects1 = []
      /\ forall configuredPath' autoOpenPanel',
           exists w2 effects2,
             step w1 (StartCommit (Some fsPath) configuredPath' autoOpenPanel' None)
             = Some (w2, effects2)
             /\ runner (ctl w2) = Some started_runner.
Proof.
  intros [[p r wp sm em ready waiting replacing saw] pend] fsPath cfg auto
         message Hatt.
  unfold attached in Hatt. cbn in Hatt.
  destruct r as [r |]; [discriminate |].
  unfold step, invoke, startCommit, getOrCreatePanel, cleanupRunner, on_panel,
    bind, ret, get, assign, emit, these, fresh_session, started_runner.
  destruct p; cbn;
    (eexists; eexists; split; [reflexivity |]); cbn;
    repeat split; try reflexivity;
    intros cfg' auto'; eexists; eexists; split; reflexivity.
Qed.

(** From the first state, a start that cannot spawn leaves no runner. *)
Lemma failed_start_can_be_retried_witness :
  exists w1 effects1,
    step start (StartCommit (Some (str "/w")) (str "seshat") true
                  (Some (str "spawn ENOENT")))
    = Some (w1, effects1)
    /\ runner (ctl w1) = None.
Proof.
  destruct (@failed_start_can_be_retried start (str "/w") (str "seshat") true
              (str "spawn ENOENT"))
    as (w1 & effects1 & Hstep & Hrunner & _).
  - reflexivity.
  - exists w1, effects1. split; assumption.
Defined.

(** ** Events of the tool *)

Ltac live_world w Hreach Hatt :=
  let Hp := fresh "Hp" in
  let Hr := fresh "Hr" in
  let rd := fresh "rd" in
  let wr := fresh "wr" in
  destruct (attached_is_live Hreach Hatt) as (Hp & _ & rd & wr & Hr);
  destruct w as [[p r wp sm em ready waiting replacing saw] pend];
  cbn in Hp, Hr; subst p r.

Ltac methods :=
  unfold step, invoke, handleSeshatEvent, handlePanelMessage,
    handleCommitConfirmation, handleConfirmNeeded, handleChoiceNeeded,
    handleCommitted, handleCancelled, handleMessageReady, handleRunnerClose,
    dispose, onPanelDidDispose, stopRunner, cleanupRunner,
    schedulePanelReset, runner_respond, on_panel, bind, ret, get, assign,
    emit, these, no_task, attached.

(** X9.  On [message_ready] the message becomes both the suggested and the
    edited message, whatever the operator had typed before, and it is shown
    in the panel as current and as original text.  If the commit prompt
    follows and the operator confirms without editing, the controller
    responds [y] and spawns nothing: the tool makes its own commit. *)
Theorem suggestion_confirmed_as_is :
  forall (w : World) (message prompt : jsstring) (default : option bool),
    reachable w ->
    attached w = true ->
    contains_ignoring_case (str "commit") prompt ->
    exists w1 e1 w2 e2 w3 e3,
      step w (RunnerEvent (message_ready message)) = Some (w1, e1)
      /\ suggestedMessage (ctl w1) = message
      /\ editedMessage (ctl w1) = message
      /\ hasMessageReady (ctl w1) = true
      /\ In (PanelSetCommitMessage message message) e1
      /\ step w1 (RunnerEvent (confirm_needed prompt default)) = Some (w2, e2)
      /\ waitingForCommitConfirmation (ctl w2) = true
      /\ step w2 (PanelMessage confirm) = Some (w3, e3)
      /\ responses e3 = [str "y"]
      /\ git_spawns e3 = []
      /\ waitingForCommitConfirmation (ctl w3) = false
      /\ replacingWithManualGitCommit (ctl w3)
         = replacingWithManualGitCommit (ctl w).
Proof.
  intros w message prompt default Hreach Hatt Hprompt.
  apply JsFacts.test_i_spec in Hprompt.
  live_world w Hreach Hatt.
  destruct wr.
  all: do 6 eexists.
  all: split; [methods; cbn; reflexivity |]; cbn.
  all: do 3 (split; [reflexivity |]); split; [right; left; reflexivity |].
  all: split; [methods; cbn; rewrite Hprompt; cbn; reflexivity |]; cbn.
  all: split; [reflexivity |].
  all: split;
    [methods; cbn; rewrite JsFacts.eqb_refl, orb_true_r; cbn; reflexivity |].
  all: cbn; repeat split; reflexivity.
Qed.

(** The sample session, confirmed as proposed. *)
Lemma suggestion_confirmed_as_is_witness :
  exists w1 e1 w2 e2 w3 e3,
    step (world_after session_started) (RunnerEvent (message_ready (str "fix: x")))
    = Some (w1, e1)
    /\ step w1 (RunnerEvent (confirm_needed (str "Confirm commit?") None))
       = Some (w2, e2)
    /\ step w2 (PanelMessage confirm) = Some (w3, e3)
    /\ responses e3 = [str "y"].
Proof.
  destruct (@suggestion_confirmed_as_is
              (world_after session_started) (str "fix: x")
              (str "Confirm commit?") None)
    as (w1 & e1 & w2 & e2 & w3 & e3 & H1 & _ & _ & _ & _ & H2 & _ & H3 & H4 & _).
  - apply world_after_reachable. vm_compute. reflexivity.
  - vm_compute. reflexivity.
  - apply JsFacts.test_i_spec. vm_compute. reflexivity.
  - exists w1, e1, w2, e2, w3, e3. repeat split; assumption.
Defined.

(** X10.  A [committed] or [cancelled] event ends the workflow: the terminal
    flag goes up, the awaiting flag and the ready flag go down, and the
    commit actions are hidden once.  For [committed] the status becomes
    success with the summary of the event, or with a fixed text when the
    summary is absent or empty, the operator is told, and the reset of the
    panel is scheduled.  When the process closes afterwards, with any exit
    code, no status is set and nobody is notified: the verdict of the event
    stands. *)
Theorem terminal_event_verdict_stands :
  forall (w : World) (event : SeshatEvent) (code : option Z),
    reachable w ->
    attached w = true ->
    (exists summary, event = committed summary)
    \/ (exists reason, event = cancelled reason) ->
    exists w1 e1 w2 e2,
      step w (RunnerEvent event) = Some (w1, e1)
      /\ sawTerminalEvent (ctl w1) = true
      /\ waitingForCommitConfirmation (ctl w1) = false
      /\ hasMessageReady (ctl w1) = false
      /\ commit_actions e1 = [(false, None)]
      /\ (forall summary,
             event = committed summary ->
             statuses e1
             = [(status_success,
                 match summary with
                 | Some (c :: rest) => c :: rest
                 | _ => str "Commit realizado"
                 end)]
             /\ notifications e1
                = [ShowInformationMessage
                     (str "Seshat: "
                        ++ match summary with
                           | Some (c :: rest) => c :: rest
                           | _ => str "commit realizado com sucesso."
                           end)]
             /\ pending w1 = pending w ++ [PanelResetTimer])
      /\ step w1 (RunnerClose code) = Some (w2, e2)
      /\ statuses e2 = []
      /\ notifications e2 = []
      /\ runner (ctl w2) = None.
Proof.
  intros w event code Hreach Hatt Hevent.
  live_world w Hreach Hatt.
  destruct Hevent as [[summary ->] | [reason ->]].
  - do 4 eexists.
    split; [methods; cbn; reflexivity |]. cbn.
    do 4 (split; [reflexivity |]).
    split.
    { intros summary' H. injection H as <-.
      destruct summary as [[| c rest] |]; repeat split; reflexivity. }
    split; [methods; cbn; reflexivity |].
    repeat split; reflexivity.
  - destruct replacing.
    + do 4 eexists.
      split; [methods; cbn; reflexivity |]. cbn.
      do 4 (split; [reflexivity |]).
      split; [intros summary' H; discriminate H |].
      split; [methods; cbn; reflexivity |].
      repeat split; reflexivity.
    + do 4 eexists.
      split; [methods; cbn; reflexivity |]. cbn.
      do 4 (split; [reflexivity |]).
      split; [intros summary' H; discriminate H |].
      split; [methods; cbn; reflexivity |].
      repeat split; reflexivity.
Qed.

(** The sample session ends with [committed] and then exit code 1: the close
    sets no status. *)
Lemma terminal_event_verdict_stands_witness :
  exists w1 e1 w2 e2,
    step (world_after session_awaiting) (RunnerEvent (committed None))
    = Some (w1, e1)
    /\ step w1 (RunnerClose (Some 1%Z)) = Some (w2, e2)
    /\ statuses e2 = [].
Proof.
  destruct (@terminal_event_verdict_stands
              (world_after session_awaiting) (committed None) (Some 1%Z))
    as (w1 & e1 & w2 & e2 & H1 & _ & _ & _ & _ & _ & H2 & H3 & _).
  - apply world_after_reachable. vm_compute. reflexivity.
  - vm_compute. reflexivity.
  - left. now exists None.
  - exists w1, e1, w2, e2. repeat split; assumption.
Defined.

(** X11.  A [cancelled] event outside a manual commit sets the status to
    error and warns the operator with the reason of the event, or with a
    fixed text when the event has no reason; during a manual commit it sets
    no status and shows no notification, since the tool was told [n] on
    purpose.  An [error] event outside a manual commit sets the status to
    error with the message of the event, or a fixed text when the message is
    absent or empty, and shows it; during a manual commit it does neither.
    An [error] event changes no field of the session and leaves the runner
    attached. *)
Theorem fallback_silences_the_tool :
  forall (w w' : World) (event : SeshatEvent) (effects : list Effect),
    reachable w ->
    step w (RunnerEvent event) = Some (w', effects) ->
    (forall reason,
        event = cancelled reason ->
        if replacingWithManualGitCommit (ctl w)
        then statuses effects = [] /\ notifications effects = []
        else statuses effects = [(status_error, str "Commit cancelado")]
             /\ notifications effects
                = [ShowWarningMessage
                     (str "Seshat: commit cancelado ("
                        ++ match reason with
                           | Some text => text
                           | None => str "sem motivo informado"
                           end ++ str ").")])
    /\
    (forall message,
        event = error message ->
        same_session (ctl w) (ctl w')
        /\ runner (ctl w') = runner (ctl w)
        /\ pending w' = pending w
        /\ if replacingWithManualGitCommit (ctl w)
           then statuses effects = [] /\ notifications effects = []
           else statuses effects
                = [(status_error,
                    match message with
                    | Some (c :: rest) => c :: rest
                    | _ => str "Erro"
                    end)]
                /\ notifications effects
                   = [ShowErrorMessage
                        (str "Seshat: "
                           ++ match message with
                              | Some (c :: rest) => c :: rest
                              | _ => str "erro inesperado."
                              end)]).
Proof.
  intros w w' event effects Hreach Hstep.
  assert (Hatt : attached w = true).
  { unfold step in Hstep. destruct (attached w); [reflexivity | discriminate]. }
  live_world w Hreach Hatt.
  split.
  - intros reason ->. revert Hstep. methods. cbn.
    destruct replacing; cbn; intros H; injection H as <- <-; cbn;
      split; reflexivity.
  - intros message ->. revert Hstep. methods. unfold same_session. cbn.
    destruct replacing, message as [[| c rest] |]; cbn;
      intros H; injection H as <- <-; cbn; rewrite ?app_nil_r;
      repeat split; reflexivity.
Qed.

(** During the manual commit of the sample session, the event [cancelled]
    of the tool sets no status. *)
Lemma fallback_silences_the_tool_witness :
  statuses (next_effects (world_after session_fallback)
              (RunnerEvent (cancelled None))) = [].
Proof.
  refine (proj1 (proj1 (@fallback_silences_the_tool
                          (world_after session_fallback)
                          (next_world (world_after session_fallback)
                             (RunnerEvent (cancelled None)))
                          (cancelled None)
                          (next_effects (world_after session_fallback)
                             (RunnerEvent (cancelled None))) _ _)
                   None eq_refl)).
  - apply world_after_reachable. vm_compute. reflexivity.
  - vm_compute. reflexivity.
Defined.

(** ** Actions of the operator *)

(** X12.  A cancel action taken while the commit prompt is awaited responds
    [n] once, hides the commit actions once, takes the awaiting flag and the
    ready flag down, spawns nothing and leaves the fallback flag alone.  The
    prompt is then answered: a second cancel, or a confirm, changes nothing
    and writes nothing. *)
Theorem cancel_declines_once :
  forall (w : World),
    reachable w ->
    panel (ctl w) = true ->
    waitingForCommitConfirmation (ctl w) = true ->
    exists w' effects,
      step w (PanelMessage cancel) = Some (w', effects)
      /\ responses effects = [str "n"]
      /\ commit_actions effects = [(false, None)]
      /\ git_spawns effects = []
      /\ statuses effects = []
      /\ waitingForCommitConfirmation (ctl w') = false
      /\ hasMessageReady (ctl w') = false
      /\ replacingWithManualGitCommit (ctl w')
         = replacingWithManualGitCommit (ctl w)
      /\ pending w' = pending w
      /\ step w' (PanelMessage cancel) = Some (w', [])
      /\ step w' (PanelMessage confirm) = Some (w', []).
Proof.
  intros w Hreach Hpanel Hwait.
  destruct (awaiting_has_live_runner Hreach Hpanel Hwait) as [rd [wr Hrun]].
  destruct w as [[p r wp sm em ready waiting replacing saw] pend].
  cbn in Hpanel, Hwait, Hrun. subst p waiting r.
  destruct wr.
  all: do 2 eexists.
  all: split; [methods; cbn; reflexivity |]; cbn.
  all: rewrite ?app_nil_r.
  all: repeat split; reflexivity.
Qed.

(** In the sample session the operator cancels: one response, [n]. *)
Lemma cancel_declines_once_witness :
  exists w' effects,
    step (world_after session_awaiting) (PanelMessage cancel) = Some (w', effects)
    /\ responses effects = [str "n"].
Proof.
  destruct (@cancel_declines_once (world_after session_awaiting))
    as (w' & effects & Hstep & Hresp & _).
  - apply world_after_reachable. vm_compute. reflexivity.
  - vm_compute. reflexivity.
  - vm_compute. reflexivity.
  - exists w', effects. split; assumption.
Defined.

(** ** What is written to the tool, and what is spawned *)

Lemma member_true_In (x : jsstring) (l : list jsstring) :
  member x l = true -> In x l.
Proof.
  unfold member. intros H. apply existsb_exists in H.
  destruct H as [y [Hin Heq]]. apply JsFacts.eqb_eq in Heq. now subst y.
Qed.

(** X13.  In every reachable state, one turn of the loop responds at most
    once, and every response is a single answer: [y], [n], or, when a quick
    pick closes, one of the choices it offered or the default declared with
    them.  The text that the operator edits is never what is written. *)
Theorem responses_are_single_answers :
  forall (w w' : World) (i : Input) (effects : list Effect),
    reachable w ->
    step w i = Some (w', effects) ->
    (List.length (responses effects) <= 1)%nat
    /\ forall text,
         In text (responses effects) ->
         text = str "y"
         \/ text = str "n"
         \/ exists n selected choices default,
              i = QuickPickClosed n selected
              /\ nth_error (pending w) n = Some (AwaitQuickPick choices default)
              /\ (In text choices \/ default = Some text).
Proof.
  intros w w' i effects Hreach Hstep.
  pose proof (open_pick_offers_a_choice Hreach) as Hchoices.
  destruct w as [[p r wp sm em ready waiting replacing saw] pend].
  cbn in Hchoices.
  destruct i; run_step Hstep; cbn.
  all: split; [lia |].
  all: intros text Hin; cbn in Hin.
  all: repeat match goal with
         | H : _ \/ _ |- _ => destruct H
         | H : False |- _ => destruct H
         end.
  all: subst; try tauto.
  all: try (right; right; do 4 eexists;
            split; [reflexivity |]; split; [eassumption |];
            first [left; apply member_true_In; assumption
                  | right; reflexivity]).
  all: right; right; do 4 eexists;
    split; [reflexivity |]; split; [eassumption |]; left;
    match goal with
    | H : nth_error _ _ = Some (AwaitQuickPick ?cs _) |- _ =>
        pose proof (Hchoices _ _ _ H) as Hne;
        destruct cs; [congruence | now left]
    end.
Qed.

(** In the sample session the confirm of an edited message responds [n]. *)
Lemma responses_are_single_answers_witness :
  (List.length
     (responses (next_effects (world_after session_edited) (PanelMessage confirm)))
   <= 1)%nat.
Proof.
  refine (proj1 (@responses_are_single_answers
                   (world_after session_edited)
                   (next_world (world_after session_edited) (PanelMessage confirm))
                   (PanelMessage confirm)
                   (next_effects (world_after session_edited) (PanelMessage confirm))
                   _ _)).
  - apply world_after_reachable. vm_compute. reflexivity.
  - vm_compute. reflexivity.
Defined.

(** X14.  One turn of the loop spawns [git] at most once, and only on a
    confirm action taken while the commit prompt is awaited, with the
    workspace root known, when the trimmed edited message is not empty and
    differs from the trimmed suggestion.  The arguments are then [commit],
    [-m] and that trimmed text, the directory is the workspace root, and the
    fallback flag is up after the step.  No other input ever spawns [git],
    and [git] is never given an empty message or the untouched suggestion. *)
Theorem git_is_spawned_only_for_an_edit :
  forall (w w' : World) (i : Input) (effects : list Effect),
    step w i = Some (w', effects) ->
    git_spawns effects = []
    \/ (i = PanelMessage confirm
        /\ waitingForCommitConfirmation (ctl w) = true
        /\ trim (editedMessage (ctl w)) <> []
        /\ trim (editedMessage (ctl w)) <> trim (suggestedMessage (ctl w))
        /\ replacingWithManualGitCommit (ctl w') = true
        /\ exists cwd,
             workspacePath (ctl w) = Some cwd
             /\ cwd <> []
             /\ git_spawns effects
                = [(cwd, [str "commit"; str "-m"; trim (editedMessage (ctl w))])]).
Proof.
  intros w w' i effects Hstep.
  destruct w as [[p r wp sm em ready waiting replacing saw] pend].
  destruct i; run_step Hstep; cbn; try (left; reflexivity).
  all: right.
  all: match goal with
       | H : negb (truthy _) || Js.eqb _ _ = false |- _ =>
           apply orb_false_iff in H; destruct H as [Ht He];
           apply negb_false_iff, JsFacts.truthy_true in Ht;
           apply JsFacts.eqb_neq in He
       end.
  all: match goal with
       | H : negb ?b = false |- _ => destruct b; [| discriminate H]
       end.
  all: repeat split; try assumption.
  all: eexists; split; [reflexivity |]; split; [discriminate | reflexivity].
Qed.

(** The confirm of the unedited sample session spawns nothing. *)
Lemma git_is_spawned_only_for_an_edit_witness :
  git_spawns (next_effects (world_after session_awaiting) (PanelMessage confirm))
  = [].
Proof.
  destruct (@git_is_spawned_only_for_an_edit
              (world_after session_awaiting)
              (next_world (world_after session_awaiting) (PanelMessage confirm))
              (PanelMessage confirm)
              (next_effects (world_after session_awaiting) (PanelMessage confirm)))
    as [H | (_ & _ & _ & H & _)].
  - vm_compute. reflexivity.
  - exact H.
  - exfalso. apply H. vm_compute. reflexivity.
Defined.

(** ** Shutting down *)

(** X15.  When the panel is disposed, or the controller itself, in a
    reachable state: a runner that is attached is killed, once, and detached
    with its listeners; the panel is gone; no field of the session changes
    and nothing is written to the tool.  From then on no notification of a
    runner and no message of the panel is handled, whatever it is, until a
    workflow is started again. *)
Theorem disposal_stops_and_detaches :
  forall (w w' : World) (i : Input) (effects : list Effect),
    reachable w ->
    i = PanelDisposed \/ i = Dispose ->
    step w i = Some (w', effects) ->
    runner (ctl w') = None
    /\ panel (ctl w') = false
    /\ runner_kills effects = (if attached w then 1 else 0)%nat
    /\ responses effects = []
    /\ git_spawns effects = []
    /\ same_session (ctl w) (ctl w')
    /\ pending w' = pending w
    /\ forall j, from_runner j = true \/ from_panel j = true -> step w' j = None.
Proof.
  intros w w' i effects Hreach Hi Hstep.
  destruct (reachable_invariant Hreach) as [_ Hl _ _].
  destruct w as [[p r wp sm em ready waiting replacing saw] pend].
  cbn in Hl. unfold same_session, attached.
  destruct r as [r |].
  - specialize (Hl r eq_refl).
    destruct Hi as [-> | ->]; revert Hstep; methods; cbn; rewrite Hl;
      destruct p; cbn; try discriminate;
      intros H; injection H as <- <-; cbn; rewrite ?app_nil_r;
      repeat split; try reflexivity;
      intros [] [H | H]; try discriminate H; reflexivity.
  - destruct Hi as [-> | ->]; revert Hstep; methods; cbn;
      destruct p; cbn; try discriminate;
      intros H; injection H as <- <-; cbn; rewrite ?app_nil_r;
      repeat split; try reflexivity;
      intros [] [H | H]; try discriminate H; reflexivity.
Qed.

(** The operator closes the panel of the sample session: the runner is
    killed once. *)
Lemma disposal_stops_and_detaches_witness :
  runner_kills (next_effects (world_after session_awaiting) PanelDisposed) = 1%nat.
Proof.
  refine (proj1 (proj2 (proj2 (@disposal_stops_and_detaches
                                 (world_after session_awaiting)
                                 (next_world (world_after session_awaiting)
                                    PanelDisposed)
                                 PanelDisposed
                                 (next_effects (world_after session_awaiting)
                                    PanelDisposed) _ _ _)))).
  - apply world_after_reachable. vm_compute. reflexivity.
  - left. reflexivity.
  - vm_compute. reflexivity.
Defined.

(** ** What leaves the session alone *)

(** X16.  A line of standard error, an [error] of the transport, the end of
    the child's input, the answer to a modal or a quick pick, and a timer
    change no field of the session: root, messages and the four flags are
    left as they were, the panel stays, the runner stays attached or
    detached as it was, nothing is spawned and no task is added.  A fault of
    the transport sets the status to error and shows a message, and that is
    all it does. *)
Theorem passive_inputs_keep_the_session :
  forall (w w' : World) (i : Input) (effects : list Effect),
    passive i = true ->
    step w i = Some (w', effects) ->
    same_session (ctl w) (ctl w')
    /\ panel (ctl w') = panel (ctl w)
    /\ attached w' = attached w
    /\ git_spawns effects = []
    /\ (List.length (pending w') <= List.length (pending w))%nat
    /\ (forall message,
           i = RunnerError message ->
           w' = w
           /\ notifications effects
              = [ShowErrorMessage
                   (str "Seshat: erro no processo (" ++ message ++ str ").")]
           /\ (panel (ctl w) = true ->
               statuses effects = [(status_error, str "Erro no processo")])).
Proof.
  intros w w' i effects Hpassive Hstep.
  destruct w as [[p r wp sm em ready waiting replacing saw] pend].
  unfold same_session, attached.
  assert (Hlen : forall n, (List.length (without n pend) <= List.length pend)%nat).
  { intros n. unfold without. rewrite length_app, length_firstn, length_skipn. lia. }
  destruct i; try discriminate Hpassive; run_step Hstep; cbn;
    rewrite ?app_nil_r;
    repeat split; try reflexivity; try apply Hlen; try lia;
    try discriminate;
    try match goal with
        | H : RunnerError _ = RunnerError _ |- _ => injection H as <-
        end;
    try reflexivity.
  all: try (intros Hp; first [discriminate Hp | reflexivity]).
  all: destruct r; reflexivity.
Qed.

(** A transport fault in the sample session leaves the state as it is. *)
Lemma passive_inputs_keep_the_session_witness :
  next_world (world_after session_awaiting) (RunnerError (str "EPIPE"))
  = world_after session_awaiting.
Proof.
  refine (proj1 (proj2 (proj2 (proj2 (proj2 (proj2
            (@passive_inputs_keep_the_session
               (world_after session_awaiting)
               (next_world (world_after session_awaiting)
                  (RunnerError (str "EPIPE")))
               (RunnerError (str "EPIPE"))
               (next_effects (world_after session_awaiting)
                  (RunnerError (str "EPIPE"))) _ _)))))
            (str "EPIPE") eq_refl)).
  - reflexivity.
  - vm_compute. reflexivity.
Defined.

(** ** The end of the manual commit *)

Lemma filter_join_two (first second : jsstring) :
  filter_join [first; second] = two_streams first second.
Proof. destruct first, second; reflexivity. Qed.

Lemma trimmed_or_empty_trim (text : jsstring) :
  trimmed_or_empty (Some text) = trim text.
Proof. destruct text; reflexivity. Qed.

(** X17.  The manual commit counts as done exactly when [git] closes with
    exit code 0: then the status becomes success, the terminal flag is set
    and the reset of the panel is scheduled.  Every other end (another exit
    code, no exit code, an error of the child, an exception of [spawn]) is a
    failure: the status becomes error, the operator is shown the reason (for
    an exit code, a text that names the code), the terminal flag is left as
    it was and no reset is scheduled.  Either way the fallback flag is down
    afterwards, the task is no longer pending, nothing is written to the
    tool, and the messages and the other two flags are untouched. *)
Theorem manual_commit_verdict :
  forall (w w' : World) (n : nat) (settle : GitSettle) (effects : list Effect),
    panel (ctl w) = true ->
    settles w n settle w' effects ->
    (if exited_zero settle
     then statuses effects
          = [(status_success, str "Commit realizado com mensagem editada")]
          /\ notifications effects
             = [ShowInformationMessage
                  (str "Seshat: commit realizado com a mensagem editada.")]
          /\ sawTerminalEvent (ctl w') = true
          /\ pending w' = without n (pending w) ++ [PanelResetTimer]
     else statuses effects = [(status_error, str "Falha ao executar git commit")]
          /\ notifications effects
             = [ShowErrorMessage
                  (str "Seshat: falha no git commit (" ++ failure_reason settle
                     ++ str ").")]
          /\ sawTerminalEvent (ctl w') = sawTerminalEvent (ctl w)
          /\ pending w' = without n (pending w))
    /\ replacingWithManualGitCommit (ctl w') = false
    /\ responses effects = []
    /\ git_spawns effects = []
    /\ suggestedMessage (ctl w') = suggestedMessage (ctl w)
    /\ editedMessage (ctl w') = editedMessage (ctl w)
    /\ hasMessageReady (ctl w') = hasMessageReady (ctl w)
    /\ waitingForCommitConfirmation (ctl w') = waitingForCommitConfirmation (ctl w)
    /\ runner (ctl w') = runner (ctl w).
Proof.
  intros w w' n settle effects Hpanel Hsettle.
  destruct w as [[p r wp sm em ready waiting replacing saw] pend].
  cbn in Hpanel. subst p. unfold settles in Hsettle.
  destruct settle as [[[| c | c] |] stdout stderr | message stdout stderr | message];
    run_step Hsettle; cbn; rewrite ?app_nil_r;
    repeat split; reflexivity.
Qed.

(** The manual commit of the sample session is killed by a signal: no exit
    code, so it failed. *)
Lemma manual_commit_verdict_witness :
  statuses (next_effects (world_after session_fallback)
              (GitCommitSettled 0 (GitClosed None [] [])))
  = [(status_error, str "Falha ao executar git commit")].
Proof.
  refine (proj1 (proj1 (@manual_commit_verdict
                          (world_after session_fallback)
                          (next_world (world_after session_fallback)
                             (GitCommitSettled 0 (GitClosed None [] [])))
                          0 (GitClosed None [] [])
                          (next_effects (world_after session_fallback)
                             (GitCommitSettled 0 (GitClosed None [] []))) _ _))).
  - vm_compute. reflexivity.
  - vm_compute. reflexivity.
Defined.

(** X18.  What the panel shows of the output of the manual commit.  After
    exit code 0: the two captured streams as they are, under the title
    [git commit].  After a failure: the two streams trimmed, under the title
    [git commit (erro)].  In both cases standard output comes first and a
    line feed separates it from standard error; an empty stream is left out,
    and when nothing is left nothing is shown.  When [spawn] threw there are
    no streams and nothing is shown. *)
Theorem manual_commit_output :
  forall (w w' : World) (n : nat) (settle : GitSettle) (effects : list Effect),
    panel (ctl w) = true ->
    settles w n settle w' effects ->
    let shown :=
      if exited_zero settle
      then two_streams (fst (captured settle)) (snd (captured settle))
      else two_streams (trim (fst (captured settle)))
             (trim (snd (captured settle))) in
    system_outputs effects
    = match shown with
      | [] => []
      | _ => [(if exited_zero settle
               then str "git commit" else str "git commit (erro)", shown)]
      end.
Proof.
  intros w w' n settle effects Hpanel Hsettle.
  destruct w as [[p r wp sm em ready waiting replacing saw] pend].
  cbn in Hpanel. subst p. unfold settles, step in Hsettle.
  cbn [pending ctl] in Hsettle.
  destruct (nth_error pend n) as [[d | cs d | cwd edited |] |];
    cbv beta iota in Hsettle; try discriminate Hsettle.
  unfold invoke in Hsettle. cbn [ctl] in Hsettle.
  match type of Hsettle with
  | context [resumeCommitConfirmation settle ?c] =>
      assert (Heff : effects = snd (resumeCommitConfirmation settle c))
        by (destruct (resumeCommitConfirmation settle c) as [[a c1] e];
            cbv beta iota in Hsettle; injection Hsettle as _ <-; reflexivity)
  end.
  clear Hsettle. subst effects.
  unfold resumeCommitConfirmation, schedulePanelReset, on_panel,
    bind, ret, get, assign, emit.
  destruct settle as [[[| c | c] |] stdout stderr | message stdout stderr | message];
    cbn [runGitCommit failure_stdout failure_stderr failure_message
         exited_zero captured fst snd];
    rewrite ?filter_join_two, ?trimmed_or_empty_trim;
    try change (trimmed_or_empty None) with (@nil N);
    try change (trim []) with (@nil N).
  1: destruct stdout, stderr; reflexivity.
  1-4: generalize (trim stdout) (trim stderr); intros [| a s1] [| b s2];
    reflexivity.
  reflexivity.
Qed.

(** The manual commit of the sample session prints on both streams. *)
Lemma manual_commit_output_witness :
  system_outputs
    (next_effects (world_after session_fallback)
       (GitCommitSettled 0 (GitClosed (Some 0%Z) (str "done") (str "warn"))))
  = [(str "git commit", str "done" ++ 10%N :: str "warn")].
Proof.
  refine (@manual_commit_output
            (world_after session_fallback)
            (next_world (world_after session_fallback)
               (GitCommitSettled 0 (GitClosed (Some 0%Z) (str "done") (str "warn"))))
            0 (GitClosed (Some 0%Z) (str "done") (str "warn"))
            (next_effects (world_after session_fallback)
               (GitCommitSettled 0 (GitClosed (Some 0%Z) (str "done") (str "warn"))))
            _ _).
  - vm_compute. reflexivity.
  - vm_compute. reflexivity.
Defined.

End ControllerMore.

(* ------------------------------------------------------------------------- *)
(** * The panel: its messages, its nonce, its commit box *)

Module PanelProofs.

Import Controller ControllerProofs Session SeshatPanel.

(** ** Messages of the webview *)

(** The name of the [type] that a message is recognised by. *)
Lemma recognised_type (v : Json.value) (m : PanelMessageFromWebview) :
  onWebviewMessage v = Some m ->
  property (str "type") v
  = Some (Json.JString
            match m with
            | confirm => str "confirm"
            | cancel => str "cancel"
            | messageEdited _ => str "messageEdited"
            end).
Proof.
  unfold onWebviewMessage.
  destruct (negb (Json.is_object v) || negb (Json.has_word_key (str "type") v));
    [discriminate |].
  unfold is_string.
  destruct (property (str "type") v) as [[| b | l | s | items | members] |];
    try discriminate.
  destruct (Js.eqb s (str "confirm")) eqn:H1.
  { intros H. injection H as <-. apply JsFacts.eqb_eq in H1. now subst s. }
  destruct (Js.eqb s (str "cancel")) eqn:H2.
  { intros H. injection H as <-. apply JsFacts.eqb_eq in H2. now subst s. }
  destruct (Js.eqb s (str "messageEdited")) eqn:H3; [| discriminate].
  intros H. injection H as <-. apply JsFacts.eqb_eq in H3. now subst s.
Qed.


(** ** [createNonce] *)

Lemma charAt_in_range (i : nat) :
  (i < 62)%nat ->
  exists c, charAt nonce_chars i = [c] /\ is_alphanumeric c = true.
Proof.
  intros Hi. do 62 (destruct i as [| i]; [eexists; split; reflexivity |]).
  lia.
Qed.

Lemma nonce_loop_spec (draw : nat -> nat) (rounds i : nat) (value : jsstring) :
  (forall k, (draw k < 62)%nat) ->
  List.length (nonce_loop draw rounds i value) = (List.length value + rounds)%nat
  /\ (forallb is_alphanumeric value = true ->
      forallb is_alphanumeric (nonce_loop draw rounds i value) = true).
Proof.
  intros Hdraw. revert i value.
  induction rounds as [| rounds IH]; intros i value; simpl.
  - split; [lia | tauto].
  - destruct (@charAt_in_range (draw i) (Hdraw i)) as [c [Hc Halnum]]. rewrite Hc.
    destruct (IH (S i) (value ++ [c])) as [Hlen Hall]. split.
    + rewrite Hlen, length_app. simpl. lia.
    + intros Hv. apply Hall. rewrite forallb_app, Hv. simpl. now rewrite Halnum.
Qed.

(** X20.  Whatever indices are drawn within the alphabet, the nonce has
    exactly 32 code units and each of them is an ASCII letter or digit. *)
Theorem nonce_is_32_alphanumerics :
  forall draw : nat -> nat,
    (forall k, (draw k < 62)%nat) ->
    List.length (createNonce draw) = 32%nat
    /\ forallb is_alphanumeric (createNonce draw) = true.
Proof.
  intros draw Hdraw. unfold createNonce.
  destruct (@nonce_loop_spec draw 32 0 [] Hdraw) as [Hlen Hall].
  split; [exact Hlen | now apply Hall].
Qed.

(** Drawing index 61 every time gives 32 times the digit 9. *)
Lemma nonce_is_32_alphanumerics_witness :
  List.length (createNonce (fun _ => 61%nat)) = 32%nat.
Proof.
  refine (proj1 (@nonce_is_32_alphanumerics (fun _ => 61%nat) _)).
  intros k. lia.
Defined.

(** ** The commit box *)

Arguments view_seshat_event : simpl never.

(** No event of the tool makes the webview display the buttons by
    itself. *)
Lemma seshat_event_never_shows (event : SeshatEvent) (b : CommitBox) :
  actions_displayed (view_seshat_event event b) = true ->
  actions_displayed b = true.
Proof.
  unfold view_seshat_event.
  destruct (Js.eqb (event_name event) (str "message_ready")); [tauto |].
  destruct (Js.eqb (event_name event) (str "committed")); [discriminate |].
  destruct (Js.eqb (event_name event) (str "cancelled")); [discriminate |].
  tauto.
Qed.

Lemma shown_invariant_step (w w' : World) (view view' : option CommitBox)
    (i : Input) :
  shown_invariant w view ->
  step_shown w view i = Some (w', view') ->
  shown_invariant w' view'.
Proof.
  intros [Hpanel Hbuttons] Hshown. unfold step_shown in Hshown.
  destruct (step w i) as [[w1 effects] |] eqn:Hstep; [| discriminate].
  injection Hshown as <- <-.
  destruct w as [[p r wp sm em ready waiting replacing saw] pend].
  cbn in Hpanel, Hbuttons.
  destruct view as [[bd iv cp ad vs] |]; cbn in Hpanel, Hbuttons.
  - specialize (Hpanel ltac:(discriminate)). subst p.
    destruct i; run_step Hstep; cbn; constructor; cbn.
    all: try (intros _; reflexivity).
    all: try (intros H; discriminate H).
    all: try assumption.
    all: try (intros H; apply seshat_event_never_shows in H; cbn in H;
              first [discriminate H | tauto]).
    all: try congruence.
  - destruct i; run_step Hstep; cbn; constructor; cbn.
    all: try (intros _; reflexivity).
    all: try (intros H; discriminate H).
    all: try (intros H; exfalso; apply H; reflexivity).
    all: try congruence.
Qed.

Lemma reachable_shown_invariant (w : World) (view : option CommitBox) :
  reachable_shown w view -> shown_invariant w view.
Proof.
  induction 1 as [| w w' view view' i _ IH Hstep].
  - constructor; [intros H; now elim H | discriminate].
  - eapply shown_invariant_step; eassumption.
Qed.

Lemma reachable_shown_reachable (w : World) (view : option CommitBox) :
  reachable_shown w view -> reachable w.
Proof.
  induction 1 as [| w w' view view' i _ IH Hstep].
  - apply reachable_start.
  - unfold step_shown in Hstep.
    destruct (step w i) as [[w1 effects] |] eqn:Hs; [| discriminate].
    injection Hstep as <- _.
    eapply reachable_step; [exact IH | reflexivity | exact Hs].
Qed.

Lemma run_shown_reachable (inputs : list Input) (w w' : World)
    (view view' : option CommitBox) :
  reachable_shown w view ->
  run_shown w view inputs = Some (w', view') ->
  reachable_shown w' view'.
Proof.
  revert w view. induction inputs as [| i inputs IH]; intros w view Hw Hrun;
    simpl in Hrun.
  - injection Hrun as <- <-. exact Hw.
  - destruct (step_shown w view i) as [[w1 view1] |] eqn:Hstep; [| discriminate].
    apply (IH w1 view1); [| exact Hrun].
    eapply shown_step; eassumption.
Qed.

Lemma after_shown_reachable (inputs : list Input) :
  runs_shown inputs = true ->
  reachable_shown (fst (after_shown inputs)) (snd (after_shown inputs)).
Proof.
  unfold runs_shown, after_shown.
  destruct (run_shown start None inputs) as [[w view] |] eqn:Hrun;
    [| discriminate].
  intros _. eapply run_shown_reachable; [apply shown_start | exact Hrun].
Qed.



(** ** The rows of a review *)

Lemma one_line_rev (s : jsstring) : one_line (rev s) = one_line s.
Proof. unfold one_line. apply JsFacts.forallb_rev. Qed.

Lemma split_lines_one_line (text current : jsstring) :
  one_line current = true ->
  forallb one_line (split_lines text current) = true.
Proof.
  assert (Hall : forall n text current,
             List.length text <= n ->
             one_line current = true ->
             forallb one_line (split_lines text current) = true);
    [| now apply (Hall (List.length text))].
  clear text current.
  induction n as [| n IHn]; intros text current Hlen Hc.
  { destruct text; [| simpl in Hlen; lia]. simpl. now rewrite one_line_rev, Hc. }
  assert (IH : forall y, List.length y < List.length text ->
                         forall cur, one_line cur = true ->
                         forallb one_line (split_lines y cur) = true).
  { intros y Hy cur Hcur. apply IHn; [lia | exact Hcur]. }
  clear IHn Hlen.
  destruct text as [| c rest]; simpl.
  - now rewrite one_line_rev, Hc.
  - assert (Hrest : forall cur, one_line cur = true ->
                                forallb one_line (split_lines rest cur) = true).
    { intros cur Hcur. apply IH; [simpl; lia | exact Hcur]. }
    assert (Hcut : forallb one_line (rev current :: split_lines rest []) = true).
    { simpl. rewrite one_line_rev, Hc. now apply Hrest. }
    assert (Hkeep : (c =? 10)%N = false ->
                    forallb one_line (split_lines rest (c :: current)) = true).
    { intros Hne. apply Hrest. unfold one_line in *. simpl. now rewrite Hne, Hc. }
    destruct (N.eqb_spec c 10) as [-> | Hne10]; [exact Hcut |].
    assert (Hc10 : (c =? 10)%N = false) by now apply N.eqb_neq.
    destruct (N.eqb_spec c 13) as [-> | Hne13].
    + destruct rest as [| d rest'].
      * now apply Hkeep.
      * destruct (N.eqb_spec d 10) as [-> | Hd].
        -- simpl. rewrite one_line_rev, Hc. apply IH; [simpl; lia | reflexivity].
        -- destruct d as [| p]; [now apply Hkeep |].
           do 4 (destruct p as [p | p |]; try (now apply Hkeep)).
           now elim Hd.
    + destruct c as [| p]; [now apply Hkeep |].
      do 4 (destruct p as [p | p |]; try (now apply Hkeep));
        first [now elim Hne10 | now elim Hne13].
Qed.


End PanelProofs.
